(** * locci-farm: queue-driven task dispatch and threshold alerting

    A shallow embedding of [server.js]: the Bull job processors, the
    webhook that seeds them and the [sendTaskNotification] helper, together
    with the properties the specification states about them; and the other
    endpoints and the scheduler setup, with properties of the server as a
    whole.

    Modelling conventions.
    - A JavaScript number is [num]: the rational a double denotes, or
      [NaN] or one of the two infinities.  Comparison and truthiness are
      exact; an arithmetic operator returns its exact result rounded to
      binary64 ([Num.round]: to the nearest double, a tie to the even
      significand, with gradual underflow and overflow to the infinities),
      kept in lowest terms; a decimal literal such as [0.7] is the double
      nearest to it.  The sign of zero is not kept: the code never
      divides, and comparison, truthiness and printing do not tell the two
      zeros apart, so nothing it does depends on it.
    - A JavaScript value is [value]; an object used as a record or a map is
      a [gmap string value], and reading a missing property gives
      [VUndef].
    - Strings are byte strings holding UTF-8 (the emoji of the message
      templates are their UTF-8 bytes); [for ... of] over a string runs
      over its code points, and [length] counts UTF-16 code units.
    - Built-ins whose result depends on the engine's number printing or
      parsing or on the Unicode tables ([parseFloat],
      [Number.prototype.toString], [Number.prototype.toFixed],
      string-to-number coercion, [String.prototype.toUpperCase]) are
      fields of a [Runtime] record the development is parametrised by.
    - [Math.random()], [new Date()], [process.env] and the SMS provider are
      inputs held by the [World]; the five Bull queues are its outputs.
      A processor is a computation in the monad [M]: it transforms the
      world and either returns a value or throws an [error].
    - [queue.add] resolves: the job is added (Redis is reachable).  What
      [getJobCounts] and the scheduler client answer is a parameter of the
      endpoints that call them.
    - [console.log] / [console.error] and the two-second [setTimeout] of
      the irrigation processor have no effect on the modelled state and
      are left out. *)

From Stdlib Require Import String Ascii List ZArith QArith Qround Qpower Qabs Lqa Lia Bool.
From Stdlib Require Import Floats.
From stdpp Require Import base option list gmap strings.

Set Warnings "-register-all".
Set Default Proof Using "Type".

Local Open Scope string_scope.

(* ===================================================================== *)
(** ** Numbers *)
(* ===================================================================== *)

Inductive num : Type :=
| NaN
| PInf
| NInf
| Fin (q : Q).

Module Num.

Definition Qlt_bool (x y : Q) : bool := negb (Qle_bool y x).

(** *** Rounding to binary64

    A finite number is the rational a double denotes.  What an arithmetic
    operation returns is its exact result rounded as IEEE 754 prescribes
    for binary64: 53 significant bits, the nearest double, a tie going to
    the double whose significand is even; below [2^-1022] the spacing stays
    [2^-1074] (gradual underflow); a result that rounds to [2^1024] or
    beyond is an infinity. *)

Definition pow2 (e : Z) : Q := (2 ^ e)%Q.

(** The [b] with [2^b <= q < 2^(b+1)], for a positive [q]. *)
Definition binade (q : Q) : Z :=
  let b := (Z.log2 (Qnum q) - Z.log2 (Zpos (Qden q)))%Z in
  if Qle_bool (pow2 b) q then b else (b - 1)%Z.

(** The nearest integer, a tie going to the even one. *)
Definition round_half_even (t : Q) : Z :=
  let f := Qfloor t in
  match (t - inject_Z f ?= 1 # 2)%Q with
  | Lt => f
  | Gt => (f + 1)%Z
  | Eq => if Z.even f then f else (f + 1)%Z
  end.

(** The exponent of the spacing of the doubles around a positive [q]. *)
Definition ulp_exponent (q : Q) : Z := Z.max (binade q - 52) (-1074).

(** The double nearest to a positive [q], were the exponent unbounded
    above. *)
Definition nearest (q : Q) : Q :=
  let e := ulp_exponent q in
  (inject_Z (round_half_even (q / pow2 e)) * pow2 e)%Q.

Definition roundQ (q : Q) : Q :=
  match (q ?= 0)%Q with
  | Eq => 0%Q
  | Gt => nearest q
  | Lt => (- nearest (- q))%Q
  end.

(** The double, or the infinity, an exact result [q] is rounded to. *)
Definition round (q : Q) : num :=
  let v := roundQ q in
  if Qle_bool (pow2 1024) v then PInf
  else if Qle_bool v (- pow2 1024) then NInf
  else Fin (Qred v).

(** A decimal literal of the source: the double nearest to it. *)
Definition literal (q : Q) : num := round q.

(** The rationals that are doubles. *)
Definition double (q : Q) : Prop := round q = Fin q.

(** An integer literal, or a length; those of the source are below
    [2^53], where every integer is a double. *)
Definition of_Z (z : Z) : num := Fin (inject_Z z).
Definition of_nat (n : nat) : num := of_Z (Z.of_nat n).

(** [a < b] *)
Definition lt (a b : num) : bool :=
  match a, b with
  | NaN, _ | _, NaN => false
  | Fin x, Fin y => Qlt_bool x y
  | NInf, NInf => false
  | NInf, _ => true
  | _, NInf => false
  | PInf, _ => false
  | Fin _, PInf => true
  end.

(** [a > b] *)
Definition gt (a b : num) : bool := lt b a.

(** [a + b] *)
Definition add (a b : num) : num :=
  match a, b with
  | NaN, _ | _, NaN => NaN
  | Fin x, Fin y => round (x + y)
  | PInf, NInf | NInf, PInf => NaN
  | PInf, _ | _, PInf => PInf
  | NInf, _ | _, NInf => NInf
  end.

Definition opp (a : num) : num :=
  match a with
  | NaN => NaN
  | PInf => NInf
  | NInf => PInf
  | Fin x => Fin (- x)
  end.

(** [a - b] *)
Definition sub (a b : num) : num := add a (opp b).

(** The infinity with the sign of [q], [NaN] when [q] is zero. *)
Definition signed_inf (q : Q) (positive : bool) : num :=
  if Qeq_bool q 0 then NaN
  else if xorb (Qlt_bool 0 q) positive then NInf else PInf.

(** [a * b] *)
Definition mul (a b : num) : num :=
  match a, b with
  | NaN, _ | _, NaN => NaN
  | Fin x, Fin y => round (x * y)
  | Fin x, PInf | PInf, Fin x => signed_inf x true
  | Fin x, NInf | NInf, Fin x => signed_inf x false
  | PInf, PInf | NInf, NInf => PInf
  | PInf, NInf | NInf, PInf => NInf
  end.

(** ToBoolean on a number: [NaN] and zero are falsy. *)
Definition to_bool (a : num) : bool :=
  match a with
  | NaN => false
  | Fin q => negb (Qeq_bool q 0)
  | PInf | NInf => true
  end.

End Num.

(* ===================================================================== *)
(** ** Strings *)
(* ===================================================================== *)

Module Str.

(** [s.replace(pat, rep)] with a string pattern: only the first occurrence
    of [pat] is replaced.  The replacement is taken as it is (the
    replacements of [server.js] hold no [$] pattern). *)
Fixpoint replace (pat rep s : string) : string :=
  if String.prefix pat s then rep +:+ String.substring (String.length pat) (String.length s) s
  else match s with
       | EmptyString => EmptyString
       | String c s' => String c (replace pat rep s')
       end.

(** [s.includes(sub)] *)
Definition includes (s sub : string) : bool :=
  match String.index 0 sub s with
  | Some _ => true
  | None => false
  end.

Definition upper_ascii (c : ascii) : ascii :=
  let n := nat_of_ascii c in
  if (97 <=? n)%nat && (n <=? 122)%nat then ascii_of_nat (n - 32) else c.

(** [s.toUpperCase()] on a string whose letters are ASCII; any other
    character is left as it is. *)
Fixpoint toUpperCase (s : string) : string :=
  match s with
  | EmptyString => EmptyString
  | String c s' => String (upper_ascii c) (toUpperCase s')
  end.

(** The elements of [l] joined by [sep]. *)
Fixpoint join (sep : string) (l : list string) : string :=
  match l with
  | [] => ""
  | [s] => s
  | s :: l' => s +:+ sep +:+ join sep l'
  end.

End Str.

(* ===================================================================== *)
(** ** Values and coercions *)
(* ===================================================================== *)

Inductive value : Type :=
| VUndef
| VNull
| VBool (b : bool)
| VNum (n : num)
| VStr (s : string)
| VArr (l : list value)
| VObj (o : gmap string value).

(** A plain object: job data, notification details, job results. *)
Abbreviation obj := (gmap string value).

(** [o.k]: a missing property reads as [undefined]. *)
Definition get (o : obj) (k : string) : value := default VUndef (o !! k).

(** What a JavaScript [throw] carries here: an [Error] object, of which the
    code reads [error.message] only. *)
Inductive error : Type :=
| TypeError (msg : string)
| Error (msg : string).

Definition error_message (e : error) : string :=
  match e with
  | TypeError m | Error m => m
  end.

Inductive outcome (A : Type) : Type :=
| Ok (a : A)
| Throw (e : error).
Arguments Ok {A} a.
Arguments Throw {A} e.

(** The engine's number printing and parsing, and its upper-casing. *)
Record Runtime : Type := {
  (** [parseFloat(s)] on a string *)
  parseFloat_string : string -> num;
  (** [Number(s)], the coercion of a string to a number *)
  Number_of_string : string -> num;
  (** [String(n)] *)
  Number_toString : num -> string;
  (** [n.toFixed(digits)] *)
  Number_toFixed : num -> nat -> string;
  (** [s.toUpperCase()] *)
  String_toUpperCase : string -> string;
}.

Section Coercions.

Context (rt : Runtime).

(** ToBoolean *)
Definition truthy (v : value) : bool :=
  match v with
  | VUndef | VNull => false
  | VBool b => b
  | VNum n => Num.to_bool n
  | VStr s => negb (String.eqb s "")
  | VArr _ | VObj _ => true
  end.

(** [a || b] *)
Definition js_or (a b : value) : value := if truthy a then a else b.

(** ToString, as a template literal or a string concatenation applies it. *)
Fixpoint toString (v : value) : string :=
  match v with
  | VUndef => "undefined"
  | VNull => "null"
  | VBool true => "true"
  | VBool false => "false"
  | VNum n => Number_toString rt n
  | VStr s => s
  | VArr l =>
      Str.join ","
        (map (fun x => match x with
                       | VUndef | VNull => ""
                       | _ => toString x
                       end) l)
  | VObj _ => "[object Object]"
  end.

(** ToPrimitive: arrays and plain objects become their string. *)
Definition toPrimitive (v : value) : value :=
  match v with
  | VArr _ | VObj _ => VStr (toString v)
  | _ => v
  end.

(** ToNumber *)
Definition toNumber (v : value) : num :=
  match toPrimitive v with
  | VUndef => NaN
  | VNull => Num.of_Z 0
  | VBool true => Num.of_Z 1
  | VBool false => Num.of_Z 0
  | VNum n => n
  | VStr s => Number_of_string rt s
  | VArr _ | VObj _ => NaN
  end.

(** [a + b]: concatenation as soon as one side is a string. *)
Definition js_add (a b : value) : value :=
  match toPrimitive a, toPrimitive b with
  | VStr s, pb => VStr (s +:+ toString pb)
  | pa, VStr s => VStr (toString pa +:+ s)
  | pa, pb => VNum (Num.add (toNumber pa) (toNumber pb))
  end.

(** [a - b] *)
Definition js_sub (a b : value) : value :=
  VNum (Num.sub (toNumber a) (toNumber b)).

(** [parseFloat(process.env.X)]: an unset variable is [undefined], whose
    string ["undefined"] parses to [NaN]. *)
Definition parseFloat (v : option string) : num :=
  match v with
  | None => NaN
  | Some s => parseFloat_string rt s
  end.

(** [parseFloat(x) || dflt] for a numeric default. *)
Definition num_or (n dflt : num) : num := if Num.to_bool n then n else dflt.

End Coercions.

(* ===================================================================== *)
(** ** The world: inputs, queues and the processor monad *)
(* ===================================================================== *)

(** What the code reads of a [Date]. *)
Record Date : Type := {
  toISOString : string;
  toLocaleTimeString : string;
}.

Module Job.
(** A Bull job as [queue.add(name, data)] creates it. *)
Record t : Type := {
  name : string;
  data : obj;
}.
End Job.

(** The five queue handles of [server.js]. *)
Inductive Queue : Type :=
| iotSensorQueue
| irrigationQueue
| marketDataQueue
| maintenanceQueue
| notificationQueue.

(** The jobs added to each queue, oldest first; the fields carry the queue
    names given to [new Queue(...)]. *)
Record Queues : Type := {
  iot_sensors : list Job.t;
  irrigation : list Job.t;
  market_data : list Job.t;
  maintenance : list Job.t;
  notifications : list Job.t;
}.

Definition no_jobs : Queues :=
  {| iot_sensors := []; irrigation := []; market_data := [];
     maintenance := []; notifications := [] |}.

Definition jobs (q : Queue) (qs : Queues) : list Job.t :=
  match q with
  | iotSensorQueue => iot_sensors qs
  | irrigationQueue => irrigation qs
  | marketDataQueue => market_data qs
  | maintenanceQueue => maintenance qs
  | notificationQueue => notifications qs
  end.

Definition enqueue (q : Queue) (j : Job.t) (qs : Queues) : Queues :=
  match q with
  | iotSensorQueue =>
      {| iot_sensors := iot_sensors qs ++ [j]; irrigation := irrigation qs;
         market_data := market_data qs; maintenance := maintenance qs;
         notifications := notifications qs |}
  | irrigationQueue =>
      {| iot_sensors := iot_sensors qs; irrigation := irrigation qs ++ [j];
         market_data := market_data qs; maintenance := maintenance qs;
         notifications := notifications qs |}
  | marketDataQueue =>
      {| iot_sensors := iot_sensors qs; irrigation := irrigation qs;
         market_data := market_data qs ++ [j]; maintenance := maintenance qs;
         notifications := notifications qs |}
  | maintenanceQueue =>
      {| iot_sensors := iot_sensors qs; irrigation := irrigation qs;
         market_data := market_data qs; maintenance := maintenance qs ++ [j];
         notifications := notifications qs |}
  | notificationQueue =>
      {| iot_sensors := iot_sensors qs; irrigation := irrigation qs;
         market_data := market_data qs; maintenance := maintenance qs;
         notifications := notifications qs ++ [j] |}
  end.

Record World : Type := {
  (** [process.env] *)
  env : gmap string string;
  (** the successive results of [Math.random()], each a double in [0, 1) *)
  random : nat -> Q;
  random_ix : nat;
  (** the successive results of [new Date()] *)
  clock : nat -> Date;
  clock_ix : nat;
  (** [africasTalking.SMS.send(options)]: the provider's response, or the
      error the promise rejects with *)
  SMS_send : obj -> outcome value;
  queues : Queues;
}.

(** Every draw of [Math.random()] is a double in [0, 1). *)
Definition random_ok (w : World) : Prop :=
  forall i, (0 <= random w i)%Q /\ (random w i < 1)%Q /\ Num.double (random w i).

Definition M (A : Type) : Type := World -> World * outcome A.

Definition ret {A} (a : A) : M A := fun w => (w, Ok a).

Definition throw {A} (e : error) : M A := fun w => (w, Throw e).

Definition bind {A B} (c : M A) (k : A -> M B) : M B :=
  fun w =>
    match c w with
    | (w', Ok a) => k a w'
    | (w', Throw e) => (w', Throw e)
    end.

(** [try { c } catch (error) { h error }] *)
Definition try_catch {A} (c : M A) (h : error -> M A) : M A :=
  fun w =>
    match c w with
    | (w', Ok a) => (w', Ok a)
    | (w', Throw e) => h e w'
    end.

Definition lift {A} (o : outcome A) : M A := fun w => (w, o).

Declare Scope js_scope.
Delimit Scope js_scope with js.
Notation "x <- c ;; k" := (bind c (fun x => k))
  (at level 100, c at next level, right associativity) : js_scope.
Notation "c ;; k" := (bind c (fun _ => k))
  (at level 100, right associativity) : js_scope.
Local Open Scope js_scope.

Definition with_random_ix (n : nat) (w : World) : World :=
  {| env := env w; random := random w; random_ix := n;
     clock := clock w; clock_ix := clock_ix w; SMS_send := SMS_send w;
     queues := queues w |}.

Definition with_clock_ix (n : nat) (w : World) : World :=
  {| env := env w; random := random w; random_ix := random_ix w;
     clock := clock w; clock_ix := n; SMS_send := SMS_send w;
     queues := queues w |}.

Definition with_queues (qs : Queues) (w : World) : World :=
  {| env := env w; random := random w; random_ix := random_ix w;
     clock := clock w; clock_ix := clock_ix w; SMS_send := SMS_send w;
     queues := qs |}.

(** [Math.random()] *)
Definition Math_random : M num :=
  fun w => (with_random_ix (S (random_ix w)) w, Ok (Fin (random w (random_ix w)))).

(** [new Date()] *)
Definition new_Date : M Date :=
  fun w => (with_clock_ix (S (clock_ix w)) w, Ok (clock w (clock_ix w))).

(** [process.env[k]] *)
Definition process_env (k : string) : M (option string) :=
  fun w => (w, Ok (env w !! k)).

(** [await q.add(name, data)] *)
Definition Queue_add (q : Queue) (name : string) (data : obj) : M unit :=
  fun w =>
    (with_queues (enqueue q {| Job.name := name; Job.data := data |} (queues w)) w,
     Ok tt).

(** [await smsService.send(options)] *)
Definition smsService_send (options : obj) : M value :=
  fun w => (w, SMS_send w options).

(** [for (const x of xs) { ... }] over an array, threading the variables
    the body assigns. *)
Fixpoint for_of {A S} (xs : list A) (body : A -> S -> M S) (s : S) : M S :=
  match xs with
  | [] => ret s
  | x :: xs' => s' <- body x s ;; for_of xs' body s'
  end.

(* ===================================================================== *)
(** ** Property access on values *)
(* ===================================================================== *)

(** [process.env.X] as a value. *)
Definition env_value (v : option string) : value :=
  match v with
  | None => VUndef
  | Some s => VStr s
  end.

(** [v.replace(pat, rep)], where [what] is the text of the expression
    [v] in the source: only a string has the method. *)
Definition method_replace (what : string) (v : value) (pat rep : string)
  : outcome string :=
  match v with
  | VStr s => Ok (Str.replace pat rep s)
  | VUndef => Throw (TypeError "Cannot read properties of undefined (reading 'replace')")
  | VNull => Throw (TypeError "Cannot read properties of null (reading 'replace')")
  | _ => Throw (TypeError (what +:+ ".replace is not a function"))
  end.

(** [v.toUpperCase()], where [what] is the text of the expression [v]. *)
Definition method_toUpperCase (rt : Runtime) (what : string) (v : value)
  : outcome string :=
  match v with
  | VStr s => Ok (String_toUpperCase rt s)
  | VUndef => Throw (TypeError "Cannot read properties of undefined (reading 'toUpperCase')")
  | VNull => Throw (TypeError "Cannot read properties of null (reading 'toUpperCase')")
  | _ => Throw (TypeError (what +:+ ".toUpperCase is not a function"))
  end.

(** The bytes [0x80] to [0xBF], which continue a UTF-8 sequence. *)
Definition continues (c : ascii) : bool :=
  let n := nat_of_ascii c in (128 <=? n)%nat && (n <? 192)%nat.

(** The code points of [s], each as its UTF-8 sequence; [pending] holds
    the continuation bytes read since the last sequence was closed. *)
Fixpoint code_points_from (s : string) : string * list string :=
  match s with
  | EmptyString => (EmptyString, [])
  | String c s' =>
      let '(pending, points) := code_points_from s' in
      if continues c then (String c pending, points)
      else (EmptyString, String c pending :: points)
  end.

Definition code_points (s : string) : list string :=
  let '(pending, points) := code_points_from s in
  if String.eqb pending "" then points else pending :: points.

(** The code points outside the basic plane take four bytes, and two
    UTF-16 code units. *)
Definition code_units (point : string) : nat :=
  match point with
  | String c _ => if (240 <=? nat_of_ascii c)%nat then 2 else 1
  | EmptyString => 0
  end.

(** [s.length]: the number of UTF-16 code units. *)
Definition utf16_length (s : string) : nat :=
  fold_right (fun point n => (code_units point + n)%nat) 0%nat (code_points s).

Definition chars (s : string) : list value := map VStr (code_points s).

(** The sequence [for (const x of v)] runs over, where [what] is the text
    of the expression [v]: the elements of an array, the code points of a
    string; nothing else here is iterable. *)
Definition iterate (what : string) (v : value) : outcome (list value) :=
  match v with
  | VArr l => Ok l
  | VStr s => Ok (chars s)
  | _ => Throw (TypeError (what +:+ " is not iterable"))
  end.

(** [v.length] *)
Definition prop_length (v : value) : outcome value :=
  match v with
  | VArr l => Ok (VNum (Num.of_nat (length l)))
  | VStr s => Ok (VNum (Num.of_nat (utf16_length s)))
  | VObj o => Ok (get o "length")
  | VUndef => Throw (TypeError "Cannot read properties of undefined (reading 'length')")
  | VNull => Throw (TypeError "Cannot read properties of null (reading 'length')")
  | VBool _ | VNum _ => Ok VUndef
  end.

(** [v[0]]; of a string, its first character (a character of the basic
    plane: the strings of the jobs hold no other). *)
Definition prop_0 (v : value) : outcome value :=
  match v with
  | VArr l => Ok (default VUndef (head l))
  | VStr s => Ok (default VUndef (head (chars s)))
  | VObj o => Ok (get o "0")
  | VUndef => Throw (TypeError "Cannot read properties of undefined (reading '0')")
  | VNull => Throw (TypeError "Cannot read properties of null (reading '0')")
  | VBool _ | VNum _ => Ok VUndef
  end.

(** [v.k] for a named property [k] that no primitive has. *)
Definition prop (v : value) (k : string) : outcome value :=
  match v with
  | VObj o => Ok (get o k)
  | VUndef => Throw (TypeError ("Cannot read properties of undefined (reading '" +:+ k +:+ "')"))
  | VNull => Throw (TypeError ("Cannot read properties of null (reading '" +:+ k +:+ "')"))
  | _ => Ok VUndef
  end.

(** [v?.k] *)
Definition optional_prop (v : value) (k : string) : outcome value :=
  match v with
  | VUndef | VNull => Ok VUndef
  | _ => prop v k
  end.

(** [ToPropertyKey(v)] for [o[v] = x]. *)
Definition set_prop (rt : Runtime) (o : obj) (k v : value) : obj :=
  <[ toString rt k := v ]> o.

(** [const { k } = v]: destructuring reads [v.k], and fails on [undefined]
    and [null]. *)
Definition destructure (v : value) (k : string) : outcome value :=
  match v with
  | VObj o => Ok (get o k)
  | VUndef =>
      Throw (TypeError ("Cannot destructure property '" +:+ k
                        +:+ "' of 'req.body' as it is undefined."))
  | VNull =>
      Throw (TypeError ("Cannot destructure property '" +:+ k
                        +:+ "' of 'req.body' as it is null."))
  | _ => Ok VUndef
  end.

(** What an Express handler answers: [res.json(body)] is status 200,
    [res.status(c).json(body)] status [c]. *)
Record Response : Type := {
  statusCode : nat;
  body : obj;
}.

(** What the code reads of the Locci scheduler client: the tasks it has
    accepted, and [refuses], the error [scheduleInterval] rejects a task
    with, if it does. *)
Record Scheduler : Type := {
  scheduled : list obj;
  refuses : obj -> option error;
}.

(* ===================================================================== *)
(** ** [server.js] *)
(* ===================================================================== *)

Section Server.

Context (rt : Runtime).

(** [v?.toFixed(digits)], where [what] is the text of the expression
    [v]: skipped on [undefined] and [null]; of the other values only a
    number has the method. *)
Definition optional_toFixed (what : string) (v : value) (digits : nat) : outcome value :=
  match v with
  | VUndef | VNull => Ok VUndef
  | VNum n => Ok (VStr (Number_toFixed rt n digits))
  | _ => Throw (TypeError (what +:+ "?.toFixed is not a function"))
  end.

(** The [switch (taskType)] of [sendTaskNotification]: the value assigned
    to [message]. *)
Definition switch_taskType (taskType : string) (details : obj) : M value :=
  if String.eqb taskType "sensor_data_collected" then
    now <- new_Date ;;
    soil <- lift (optional_toFixed "details.moistureLevel"
                    (get details "moistureLevel") 1) ;;
    ret (VStr ("🌱 FARM UPDATE: Sensor data collected at " +:+ toLocaleTimeString now
               +:+ ". " +:+ "Soil: " +:+ toString rt soil +:+ "%, Weather: "
               +:+ toString rt (get details "temperature") +:+ "°C"))
  else if String.eqb taskType "irrigation_started" then
    reason <- lift (method_replace "details.reason" (get details "reason") "_" " ") ;;
    ret (VStr ("💧 IRRIGATION ALERT: Auto-irrigation started in "
               +:+ toString rt (get details "zone") +:+ ". " +:+ "Reason: " +:+ reason
               +:+ ". Duration: "
               +:+ toString rt (js_or (get details "duration") (VStr "30 min"))))
  else if String.eqb taskType "irrigation_completed" then
    ret (VStr ("✅ IRRIGATION COMPLETE: " +:+ toString rt (get details "zone")
               +:+ " watering finished. " +:+ "Soil moisture improved from "
               +:+ toString rt (get details "beforeLevel") +:+ "% to "
               +:+ toString rt (get details "afterLevel") +:+ "%"))
  else if String.eqb taskType "market_price_alert" then
    ret (VStr ("📈 MARKET ALERT: " +:+ toString rt (get details "crop") +:+ " price "
               +:+ (match get details "trend" with
                    | VStr t => if String.eqb t "up" then "increased" else "decreased"
                    | _ => "decreased"
                    end)
               +:+ " to " +:+ toString rt (get details "price") +:+ " KES/kg in "
               +:+ toString rt (get details "market") +:+ ". "
               +:+ toString rt (get details "recommendation")))
  else if String.eqb taskType "maintenance_required" then
    ret (VStr ("🔧 MAINTENANCE ALERT: " +:+ toString rt (get details "equipment")
               +:+ " requires attention. " +:+ "Health: "
               +:+ toString rt (get details "health")
               +:+ "%. Schedule maintenance soon to avoid breakdown."))
  else if String.eqb taskType "equipment_failure" then
    ret (VStr ("🚨 URGENT: " +:+ toString rt (get details "equipment") +:+ " has failed! "
               +:+ "Immediate attention required. Contact technician: +254700123456"))
  else if String.eqb taskType "weather_warning" then
    ret (VStr ("🌦️ WEATHER WARNING: " +:+ toString rt (get details "warning")
               +:+ " expected. "
               +:+ "Take protective measures for crops. Updated forecast: "
               +:+ toString rt (get details "forecast")))
  else if String.eqb taskType "task_completed" then
    now <- new_Date ;;
    ret (VStr ("✅ TASK COMPLETE: " +:+ toString rt (get details "taskName")
               +:+ " finished successfully at " +:+ toLocaleTimeString now +:+ ". "
               +:+ "Status: " +:+ toString rt (get details "status")))
  else if String.eqb taskType "system_status" then
    ret (VStr ("📊 SYSTEM UPDATE: " +:+ toString rt (get details "message") +:+ ". "
               +:+ "All systems "
               +:+ (if truthy (get details "systemsHealthy")
                    then "operating normally" else "require attention")
               +:+ "."))
  else
    ret (js_or (get details "customMessage")
               (VStr ("📱 Farm notification: " +:+ taskType))).

(** The message [sendTaskNotification] renders: the switch, then
    [message += ` [Farm: ${details.farmId || "farm-001"}]`]. *)
Definition formatMessage (taskType : string) (details : obj) : M value :=
  message <- switch_taskType taskType details ;;
  ret (js_add rt message
         (VStr (" [Farm: "
                +:+ toString rt (js_or (get details "farmId") (VStr "farm-001"))
                +:+ "]"))).

Definition sendTaskNotification (taskType : string) (details : obj) : M unit :=
  FARMER_PHONE <- process_env "FARMER_PHONE" ;;
  let farmerPhone := js_or (env_value FARMER_PHONE) (VStr "+254717135176") in
  message <- formatMessage taskType details ;;
  now <- new_Date ;;
  Queue_add notificationQueue "send-sms"
    {[ "phoneNumber" := farmerPhone;
       "message" := message;
       "type" := VStr taskType;
       "data" := VObj details;
       "timestamp" := VStr (toISOString now) ]}.

(** *** Webhook: [POST /webhooks/collect-sensor-data] *)

Definition webhook_collect_sensor_data : M obj :=
  t1 <- new_Date ;;
  Queue_add iotSensorQueue "collect-soil-moisture"
    {[ "farmId" := VStr "farm-001"; "sensorType" := VStr "soil_moisture";
       "timestamp" := VStr (toISOString t1) ]} ;;
  t2 <- new_Date ;;
  Queue_add iotSensorQueue "collect-weather-data"
    {[ "farmId" := VStr "farm-001"; "sensorType" := VStr "weather";
       "timestamp" := VStr (toISOString t2) ]} ;;
  t3 <- new_Date ;;
  Queue_add iotSensorQueue "collect-crop-health"
    {[ "farmId" := VStr "farm-001"; "sensorType" := VStr "crop_health";
       "timestamp" := VStr (toISOString t3) ]} ;;
  ret {[ "status" := VStr "success";
         "message" := VStr "IoT data collection jobs queued" ]}.

(** *** IoT sensor processors *)

Definition collect_soil_moisture (job : Job.t) : M obj :=
  let farmId := get (Job.data job) "farmId" in
  let sensorType := get (Job.data job) "sensorType" in
  r1 <- Math_random ;;
  let moistureLevel := Num.mul r1 (Num.of_Z 100) in
  r2 <- Math_random ;;
  let temperature := Num.add (Num.mul r2 (Num.of_Z 15)) (Num.of_Z 20) in
  r3 <- Math_random ;;
  let humidity := Num.add (Num.mul r3 (Num.of_Z 40)) (Num.of_Z 40) in
  sendTaskNotification "sensor_data_collected"
    {[ "farmId" := farmId; "sensorType" := sensorType;
       "moistureLevel" := VNum moistureLevel; "temperature" := VNum temperature;
       "humidity" := VNum humidity ]} ;;
  SOIL_MOISTURE_LOW_THRESHOLD <- process_env "SOIL_MOISTURE_LOW_THRESHOLD" ;;
  (if truthy
        (js_or (VBool (Num.lt moistureLevel (parseFloat rt SOIL_MOISTURE_LOW_THRESHOLD)))
               (VNum (Num.of_Z 30)))
   then
     now <- new_Date ;;
     Queue_add irrigationQueue "start-irrigation"
       {[ "farmId" := farmId; "zone" := VStr "zone-a";
          "reason" := VStr "low_soil_moisture";
          "moistureLevel" := VNum moistureLevel;
          "timestamp" := VStr (toISOString now) ]} ;;
     sendTaskNotification "irrigation_started"
       {[ "farmId" := farmId; "zone" := VStr "zone-a";
          "reason" := VStr "low_soil_moisture";
          "moistureLevel" := VNum moistureLevel;
          "duration" := VStr "30 minutes" ]}
   else ret tt) ;;
  ret {[ "moistureLevel" := VNum moistureLevel; "temperature" := VNum temperature;
         "humidity" := VNum humidity; "status" := VStr "collected" ]}.

Definition collect_weather_data (job : Job.t) : M obj :=
  r1 <- Math_random ;;
  let temperature := Num.add (Num.mul r1 (Num.of_Z 15)) (Num.of_Z 20) in
  r2 <- Math_random ;;
  let humidity := Num.add (Num.mul r2 (Num.of_Z 40)) (Num.of_Z 40) in
  r3 <- Math_random ;;
  let rainfall := Num.mul r3 (Num.of_Z 10) in
  r4 <- Math_random ;;
  let windSpeed := Num.add (Num.mul r4 (Num.of_Z 20)) (Num.of_Z 5) in
  TEMPERATURE_HIGH_THRESHOLD <- process_env "TEMPERATURE_HIGH_THRESHOLD" ;;
  let tempThreshold := num_or (parseFloat rt TEMPERATURE_HIGH_THRESHOLD) (Num.of_Z 35) in
  HUMIDITY_LOW_THRESHOLD <- process_env "HUMIDITY_LOW_THRESHOLD" ;;
  let humidityThreshold := num_or (parseFloat rt HUMIDITY_LOW_THRESHOLD) (Num.of_Z 40) in
  (if Num.gt temperature tempThreshold
   then sendTaskNotification "weather_warning"
          {[ "farmId" := get (Job.data job) "farmId";
             "warning" := VStr "High temperature alert";
             "temperature" := VNum temperature;
             "forecast" := VStr "Consider shade protection for sensitive crops" ]}
   else ret tt) ;;
  (if Num.lt humidity humidityThreshold
   then sendTaskNotification "weather_warning"
          {[ "farmId" := get (Job.data job) "farmId";
             "warning" := VStr "Low humidity alert";
             "humidity" := VNum humidity;
             "forecast" := VStr "Increase irrigation frequency" ]}
   else ret tt) ;;
  ret {[ "temperature" := VNum temperature; "humidity" := VNum humidity;
         "rainfall" := VNum rainfall; "windSpeed" := VNum windSpeed ]}.

Definition collect_crop_health (job : Job.t) : M obj :=
  let farmId := get (Job.data job) "farmId" in
  r1 <- Math_random ;;
  let leafHealth := Num.mul r1 (Num.of_Z 100) in
  r2 <- Math_random ;;
  let growthRate := Num.add (Num.mul r2 (Num.of_Z 10)) (Num.of_Z 5) in
  r3 <- Math_random ;;
  let pestActivity := Num.mul r3 (Num.of_Z 100) in
  r4 <- Math_random ;;
  let diseaseRisk := Num.mul r4 (Num.of_Z 100) in
  (if Num.lt leafHealth (Num.of_Z 60)
   then sendTaskNotification "weather_warning"
          {[ "farmId" := farmId;
             "warning" := VStr "Poor crop health detected";
             "leafHealth" := VStr (Number_toFixed rt leafHealth 1);
             "forecast" := VStr "Consider nutrient supplementation or pest control" ]}
   else ret tt) ;;
  (if Num.gt pestActivity (Num.of_Z 70)
   then sendTaskNotification "weather_warning"
          {[ "farmId" := farmId;
             "warning" := VStr "High pest activity detected";
             "pestActivity" := VStr (Number_toFixed rt pestActivity 1);
             "forecast" := VStr "Apply pest control measures immediately" ]}
   else ret tt) ;;
  ret {[ "leafHealth" := VNum leafHealth; "growthRate" := VNum growthRate;
         "pestActivity" := VNum pestActivity; "diseaseRisk" := VNum diseaseRisk;
         "status" := VStr "analyzed" ]}.

(** *** Irrigation processors *)

Definition start_irrigation (job : Job.t) : M obj :=
  let farmId := get (Job.data job) "farmId" in
  let zone := get (Job.data job) "zone" in
  let moistureLevel := get (Job.data job) "moistureLevel" in
  beforeLevel <-
    (if truthy moistureLevel then ret moistureLevel
     else r <- Math_random ;;
          ret (VNum (Num.add (Num.mul r (Num.of_Z 40)) (Num.of_Z 20)))) ;;
  r <- Math_random ;;
  let afterLevel :=
    js_add rt (js_add rt beforeLevel (VNum (Num.mul r (Num.of_Z 30))))
           (VNum (Num.of_Z 20)) in
  let duration := VStr "30 minutes" in
  sendTaskNotification "irrigation_completed"
    {[ "farmId" := farmId; "zone" := zone; "beforeLevel" := beforeLevel;
       "afterLevel" := afterLevel; "duration" := duration ]} ;;
  ret {[ "status" := VStr "irrigation_completed"; "duration" := duration;
         "moistureImprovement" := js_sub rt afterLevel beforeLevel ]}.

(** The body of the zone loop of [assess-irrigation-needs];
    [zonesNeedingIrrigation] is the variable it increments. *)
Definition assess_zone (farmId zone : value) (zonesNeedingIrrigation : nat) : M nat :=
  r <- Math_random ;;
  let moistureLevel := Num.mul r (Num.of_Z 100) in
  SOIL_MOISTURE_LOW_THRESHOLD <- process_env "SOIL_MOISTURE_LOW_THRESHOLD" ;;
  let threshold := num_or (parseFloat rt SOIL_MOISTURE_LOW_THRESHOLD) (Num.of_Z 35) in
  if Num.lt moistureLevel threshold then
    Queue_add irrigationQueue "start-irrigation"
      {[ "farmId" := farmId; "zone" := zone;
         "reason" := VStr "scheduled_assessment";
         "moistureLevel" := VNum moistureLevel ]} ;;
    ret (S zonesNeedingIrrigation)
  else ret zonesNeedingIrrigation.

Definition assess_irrigation_needs (job : Job.t) : M obj :=
  let farmId := get (Job.data job) "farmId" in
  let zones := get (Job.data job) "zones" in
  zone_list <- lift (iterate "zones" zones) ;;
  zonesNeedingIrrigation <- for_of zone_list (assess_zone farmId) 0%nat ;;
  zones_length <- lift (prop_length zones) ;;
  sendTaskNotification "task_completed"
    {[ "farmId" := farmId; "taskName" := VStr "Irrigation Assessment";
       "status" := VStr (Number_toString rt (Num.of_nat zonesNeedingIrrigation) +:+ "/"
                         +:+ toString rt zones_length +:+ " zones need watering");
       "zonesChecked" := zones_length;
       "zonesNeedingIrrigation" := VNum (Num.of_nat zonesNeedingIrrigation) ]} ;;
  ret {[ "status" := VStr "assessment_complete"; "zones_checked" := zones_length;
         "zones_needing_irrigation" := VNum (Num.of_nat zonesNeedingIrrigation) ]}.

(** *** Market data processor *)

(** [crop === "maize" ? 70 : crop === "beans" ? 110 : 55] *)
Definition basePrice (crop : value) : num :=
  match crop with
  | VStr c => if String.eqb c "maize" then Num.of_Z 70
              else if String.eqb c "beans" then Num.of_Z 110
              else Num.of_Z 55
  | _ => Num.of_Z 55
  end.

(** The body of the crop loop of [fetch-market-prices]; the state is
    [(prices, priceAlerts)]. *)
Definition check_crop (markets crop : value) (st : obj * list obj) : M (obj * list obj) :=
  let '(prices, priceAlerts) := st in
  r <- Math_random ;;
  let currentPrice :=
    Num.add (basePrice crop) (Num.mul (Num.sub r (Fin (1 # 2))) (Num.of_Z 30)) in
  let prices := set_prop rt prices crop (VNum currentPrice) in
  CROP <- lift (method_toUpperCase rt "crop" crop) ;;
  let thresholdKey := CROP +:+ "_PRICE_ALERT_THRESHOLD" in
  configured <- process_env thresholdKey ;;
  let threshold :=
    num_or (parseFloat rt configured) (Num.add (basePrice crop) (Num.of_Z 10)) in
  if Num.gt currentPrice threshold then
    market <- lift (prop_0 markets) ;;
    ret (prices,
         (priceAlerts ++
          [ {[ "crop" := crop; "price" := VNum currentPrice;
               "threshold" := VNum threshold; "trend" := VStr "up";
               "market" := js_or market (VStr "Nairobi");
               "recommendation" := VStr "Consider selling - good market price!" ]} ])%list)
  else if Num.lt currentPrice (Num.mul threshold (Num.literal (7 # 10))) then
    market <- lift (prop_0 markets) ;;
    ret (prices,
         (priceAlerts ++
          [ {[ "crop" := crop; "price" := VNum currentPrice;
               "threshold" := VNum threshold; "trend" := VStr "down";
               "market" := js_or market (VStr "Nairobi");
               "recommendation" := VStr "Hold stock - wait for better prices" ]} ])%list)
  else ret (prices, priceAlerts).

Definition fetch_market_prices (job : Job.t) : M obj :=
  let crops := get (Job.data job) "crops" in
  let markets := get (Job.data job) "markets" in
  crop_list <- lift (iterate "crops" crops) ;;
  st <- for_of crop_list (check_crop markets) (∅, []) ;;
  let '(prices, priceAlerts) := st in
  for_of priceAlerts
    (fun alert (_ : unit) => sendTaskNotification "market_price_alert" alert) tt ;;
  crops_length <- lift (prop_length crops) ;;
  markets_length <- lift (prop_length markets) ;;
  sendTaskNotification "task_completed"
    {[ "taskName" := VStr "Market Price Update";
       "status" := VStr ("Checked " +:+ toString rt crops_length +:+ " crops, "
                         +:+ Number_toString rt (Num.of_nat (length priceAlerts))
                         +:+ " alerts");
       "prices" := VObj prices;
       "marketsChecked" := markets_length ]} ;;
  ret {[ "prices" := VObj prices; "markets_checked" := markets_length;
         "alerts_sent" := VNum (Num.of_nat (length priceAlerts)) ]}.

(** *** Maintenance processor *)

(** The body of the equipment loop; the state is
    [(healthChecks, maintenanceAlerts, failureAlerts)]. *)
Definition check_item (farmId item : value) (st : obj * list obj * list obj)
  : M (obj * list obj * list obj) :=
  let '(healthChecks, maintenanceAlerts, failureAlerts) := st in
  r <- Math_random ;;
  let health := Num.mul r (Num.of_Z 100) in
  let healthChecks := set_prop rt healthChecks item (VNum health) in
  if Num.lt health (Num.of_Z 20) then
    equipment <- lift (method_replace "item" item "-" " ") ;;
    ret (healthChecks, maintenanceAlerts,
         (failureAlerts ++
          [ {[ "farmId" := farmId; "equipment" := VStr equipment;
               "health" := VStr (Number_toFixed rt health 0) ]} ])%list)
  else if Num.lt health (Num.of_Z 40) then
    equipment <- lift (method_replace "item" item "-" " ") ;;
    ret (healthChecks,
         (maintenanceAlerts ++
          [ {[ "farmId" := farmId; "equipment" := VStr equipment;
               "health" := VStr (Number_toFixed rt health 0) ]} ])%list,
         failureAlerts)
  else ret (healthChecks, maintenanceAlerts, failureAlerts).

Definition check_equipment_status (job : Job.t) : M obj :=
  let farmId := get (Job.data job) "farmId" in
  let equipment := get (Job.data job) "equipment" in
  items <- lift (iterate "equipment" equipment) ;;
  st <- for_of items (check_item farmId) (∅, [], []) ;;
  let '(healthChecks, maintenanceAlerts, failureAlerts) := st in
  for_of failureAlerts
    (fun alert (_ : unit) => sendTaskNotification "equipment_failure" alert) tt ;;
  for_of maintenanceAlerts
    (fun alert (_ : unit) => sendTaskNotification "maintenance_required" alert) tt ;;
  equipment_length <- lift (prop_length equipment) ;;
  let alertsGenerated :=
    Num.add (Num.of_nat (length maintenanceAlerts)) (Num.of_nat (length failureAlerts)) in
  sendTaskNotification "task_completed"
    {[ "farmId" := farmId; "taskName" := VStr "Equipment Maintenance Check";
       "status" := VStr (toString rt equipment_length +:+ " items checked, "
                         +:+ Number_toString rt alertsGenerated +:+ " alerts");
       "equipmentChecked" := equipment_length;
       "alertsGenerated" := VNum alertsGenerated ]} ;;
  ret {[ "healthChecks" := VObj healthChecks; "status" := VStr "complete";
         "maintenance_alerts" := VNum (Num.of_nat (length maintenanceAlerts));
         "failure_alerts" := VNum (Num.of_nat (length failureAlerts)) ]}.

(** *** Notification processor *)

Definition send_sms (job : Job.t) : M obj :=
  let phoneNumber := get (Job.data job) "phoneNumber" in
  let message := get (Job.data job) "message" in
  let type := get (Job.data job) "type" in
  try_catch
    (let options : obj := {[ "to" := phoneNumber; "message" := message ]} in
     response <- smsService_send options ;;
     SMSMessageData <- lift (prop response "SMSMessageData") ;;
     Recipients <- lift (prop SMSMessageData "Recipients") ;;
     first <- lift (prop_0 Recipients) ;;
     messageId <- lift (optional_prop first "messageId") ;;
     Recipients' <- lift (prop SMSMessageData "Recipients") ;;
     first' <- lift (prop_0 Recipients') ;;
     cost <- lift (optional_prop first' "cost") ;;
     ret {[ "status" := VStr "sent"; "provider" := VStr "africas_talking";
            "response" := SMSMessageData; "messageId" := messageId;
            "cost" := cost ]})
    (fun error =>
       ret {[ "status" := VStr "failed"; "provider" := VStr "africas_talking";
              "error" := VStr (error_message error); "phoneNumber" := phoneNumber;
              "messageType" := type ]}).

(** *** Dispatch: [queue.process(name, handler)]

    Each queue hands a job to the handler registered for its name; Bull
    fails a job whose name has no handler. *)

Definition missing_handler {A} (name : string) : M A :=
  throw (Error ("Missing process handler for job type " +:+ name)).

Definition process (q : Queue) (job : Job.t) : M obj :=
  let name := Job.name job in
  match q with
  | iotSensorQueue =>
      if String.eqb name "collect-soil-moisture" then collect_soil_moisture job
      else if String.eqb name "collect-weather-data" then collect_weather_data job
      else if String.eqb name "collect-crop-health" then collect_crop_health job
      else missing_handler name
  | irrigationQueue =>
      if String.eqb name "start-irrigation" then start_irrigation job
      else if String.eqb name "assess-irrigation-needs" then assess_irrigation_needs job
      else missing_handler name
  | marketDataQueue =>
      if String.eqb name "fetch-market-prices" then fetch_market_prices job
      else missing_handler name
  | maintenanceQueue =>
      if String.eqb name "check-equipment-status" then check_equipment_status job
      else missing_handler name
  | notificationQueue =>
      if String.eqb name "send-sms" then send_sms job
      else missing_handler name
  end.

(** *** The other webhooks

    Each handler is [try { ...; res.json(...) } catch (error)
    { res.status(500).json({ error: error.message }) }]. *)

Definition internal_error (error : error) : M Response :=
  ret {| statusCode := 500; body := {[ "error" := VStr (error_message error) ]} |}.




(** [POST /webhooks/test-sms], [req_body] being [req.body]. *)
Definition webhook_test_sms (req_body : value) : M Response :=
  try_catch
    (message <- lift (destructure req_body "message") ;;
     phoneNumber <- lift (destructure req_body "phoneNumber") ;;
     type <- lift (destructure req_body "type") ;;
     FARMER_PHONE <- process_env "FARMER_PHONE" ;;
     now <- new_Date ;;
     Queue_add notificationQueue "send-sms"
       {[ "phoneNumber" :=
            js_or (js_or phoneNumber (env_value FARMER_PHONE)) (VStr "+254717135176");
          "message" :=
            js_or message
              (VStr "🧪 Test SMS from Locci Farm IoT system - all systems operational!");
          "type" := js_or type (VStr "test");
          "timestamp" := VStr (toISOString now) ]} ;;
     ret {| statusCode := 200;
            body := {[ "status" := VStr "success";
                       "message" := VStr "Test SMS queued" ]} |})
    internal_error.

(** [GET /api/status].  [getJobCounts q qs] is what [q.getJobCounts()]
    resolves to (Bull's count of the jobs of [q] by state), or the error it
    rejects with. *)
Definition api_status (getJobCounts : Queue -> Queues -> outcome value) : M Response :=
  let counts (q : Queue) : M value := fun w => (w, getJobCounts q (queues w)) in
  try_catch
    (iotSensors <- counts iotSensorQueue ;;
     irrigation <- counts irrigationQueue ;;
     marketData <- counts marketDataQueue ;;
     maintenance <- counts maintenanceQueue ;;
     notifications <- counts notificationQueue ;;
     let queueStatus : obj :=
       {[ "iotSensors" := iotSensors; "irrigation" := irrigation;
          "marketData" := marketData; "maintenance" := maintenance;
          "notifications" := notifications ]} in
     t1 <- new_Date ;;
     sendTaskNotification "system_status"
       {[ "message" := VStr "System status check requested";
          "systemsHealthy" := VBool true;
          "queues" := VNum (Num.of_nat (size queueStatus));
          "timestamp" := VStr (toISOString t1) ]} ;;
     t2 <- new_Date ;;
     FARM_ID <- process_env "FARM_ID" ;;
     WEBHOOK_BASE_URL <- process_env "WEBHOOK_BASE_URL" ;;
     REDIS_HOST <- process_env "REDIS_HOST" ;;
     ret {| statusCode := 200;
            body :=
              {[ "status" := VStr "healthy";
                 "timestamp" := VStr (toISOString t2);
                 "queues" := VObj queueStatus;
                 "environment" :=
                   VObj {[ "farmId" := js_or (env_value FARM_ID) (VStr "farm-001");
                           "webhookBase" := env_value WEBHOOK_BASE_URL;
                           "redisHost" := env_value REDIS_HOST ]} ]} |})
    internal_error.

(** *** [setupScheduledTasks] *)

(** [await scheduler.scheduleInterval(task)] *)
Definition scheduleInterval (task : obj) (s : Scheduler) : Scheduler * outcome unit :=
  match refuses s task with
  | Some error => (s, Throw error)
  | None => ({| scheduled := scheduled s ++ [task]; refuses := refuses s |}, Ok tt)
  end.

(** [c; k] inside the [try] block: [k] runs when [c] has not thrown. *)
Definition and_then (c k : Scheduler -> Scheduler * outcome unit)
  : Scheduler -> Scheduler * outcome unit :=
  fun s =>
    match c s with
    | (s', Ok _) => k s'
    | (s', Throw e) => (s', Throw e)
    end.

(** The task object built for one webhook;
    [`${process.env.WEBHOOK_BASE_URL}/webhooks/...`] is its URL. *)
Definition interval_task (WEBHOOK_BASE_URL : option string)
    (name description path : string) (intervalSeconds : Z) : obj :=
  {[ "name" := VStr name;
     "description" := VStr description;
     "webhook" :=
       VObj {[ "url" := VStr (toString rt (env_value WEBHOOK_BASE_URL) +:+ path);
               "method" := VStr "POST";
               "payload" := VObj {[ "source" := VStr "locci_scheduler" ]} ]};
     "intervalSeconds" := VNum (Num.of_Z intervalSeconds) ]}.

(** The four tasks, in the order the code schedules them. *)
Definition interval_tasks (WEBHOOK_BASE_URL : option string) : list obj :=
  [ interval_task WEBHOOK_BASE_URL "IoT Sensor Data Collection"
      "Collect soil moisture, weather, and crop health data"
      "/webhooks/collect-sensor-data" 120;
    interval_task WEBHOOK_BASE_URL "Irrigation Assessment"
      "Check irrigation needs across all farm zones"
      "/webhooks/irrigation-check" 300;
    interval_task WEBHOOK_BASE_URL "Market Price Updates"
      "Fetch latest crop prices from major markets"
      "/webhooks/market-prices" 300;
    interval_task WEBHOOK_BASE_URL "Equipment Maintenance Check"
      "Weekly health check of all farm equipment"
      "/webhooks/maintenance-check" 300 ].

(** [setupScheduledTasks()]: the four [scheduleInterval] calls in a [try]
    whose [catch] only logs; [e] is [process.env]. *)
Definition setupScheduledTasks (e : gmap string string) (s : Scheduler) : Scheduler :=
  let WEBHOOK_BASE_URL := e !! "WEBHOOK_BASE_URL" in
  fst
    (and_then
       (scheduleInterval
          (interval_task WEBHOOK_BASE_URL "IoT Sensor Data Collection"
             "Collect soil moisture, weather, and crop health data"
             "/webhooks/collect-sensor-data" 120))
       (and_then
          (scheduleInterval
             (interval_task WEBHOOK_BASE_URL "Irrigation Assessment"
                "Check irrigation needs across all farm zones"
                "/webhooks/irrigation-check" 300))
          (and_then
             (scheduleInterval
                (interval_task WEBHOOK_BASE_URL "Market Price Updates"
                   "Fetch latest crop prices from major markets"
                   "/webhooks/market-prices" 300))
             (scheduleInterval
                (interval_task WEBHOOK_BASE_URL "Equipment Maintenance Check"
                   "Weekly health check of all farm equipment"
                   "/webhooks/maintenance-check" 300))))
       s).

End Server.

(* ===================================================================== *)
(** ** Observations the statements are written with *)
(* ===================================================================== *)

(** The kinds whose template embeds [new Date().toLocaleTimeString()]. *)
Definition uses_clock (taskType : string) : bool :=
  String.eqb taskType "sensor_data_collected" || String.eqb taskType "task_completed".


(** How often [sendTaskNotification] reads the clock: once for the job's
    timestamp, once more when the template embeds the time. *)
Definition ticks (taskType : string) : nat := if uses_clock taskType then 2 else 1.

(** The events the switch renders without throwing: [irrigation_started]
    needs a string [reason] (it calls [replace] on it), and
    [sensor_data_collected] a [moistureLevel] that is a number or is
    missing (it calls [?.toFixed] on it). *)
Definition well_formed_event (taskType : string) (details : obj) : bool :=
  if String.eqb taskType "sensor_data_collected" then
    match get details "moistureLevel" with
    | VUndef | VNull | VNum _ => true
    | _ => false
    end
  else if String.eqb taskType "irrigation_started" then
    match get details "reason" with
    | VStr _ => true
    | _ => false
    end
  else true.

(** The job [sendTaskNotification] adds to the notifications queue. *)
Definition sms (e : gmap string string) (taskType : string) (details : obj)
    (message timestamp : string) : Job.t :=
  {| Job.name := "send-sms";
     Job.data :=
       {[ "phoneNumber" :=
            js_or (env_value (e !! "FARMER_PHONE")) (VStr "+254717135176");
          "message" := VStr message;
          "type" := VStr taskType;
          "data" := VObj details;
          "timestamp" := VStr timestamp ]} |}.

(** The notification event a queued SMS job stands for: its kind and its
    details. *)
Definition event_of (j : Job.t) : value * value :=
  (get (Job.data j) "type", get (Job.data j) "data").

Definition events (qs : Queues) : list (value * value) :=
  map event_of (notifications qs).

(** [js] added to [q], one after the other. *)
Definition enqueue_all (q : Queue) (js : list Job.t) (qs : Queues) : Queues :=
  fold_left (fun qs j => enqueue q j qs) js qs.

(** [resolve("soil_moisture_low")]: the configured value when it parses to
    a number other than zero, else the default of the calling path. *)
Definition soil_moisture_low (rt : Runtime) (e : gmap string string) (dflt : Z) : num :=
  num_or (parseFloat rt (e !! "SOIL_MOISTURE_LOW_THRESHOLD")) (Num.of_Z dflt).

(** The reading the [i]-th draw of [Math.random() * 100] gives. *)
Definition reading (rnd : nat -> Q) (i : nat) : num :=
  Num.mul (Fin (rnd i)) (Num.of_Z 100).

(** The follow-up job of the assessment path for one zone. *)
Definition assessment_followup (farmId zone : value) (moistureLevel : num) : Job.t :=
  {| Job.name := "start-irrigation";
     Job.data :=
       {[ "farmId" := farmId; "zone" := zone;
          "reason" := VStr "scheduled_assessment";
          "moistureLevel" := VNum moistureLevel ]} |}.

(** The follow-ups of a zone list whose readings start at draw [ix]: one
    job for each zone whose reading is below [threshold], in zone order. *)
Fixpoint zone_followups (farmId : value) (threshold : num) (rnd : nat -> Q)
    (ix : nat) (zones : list value) : list Job.t :=
  match zones with
  | [] => []
  | zone :: rest =>
      (if Num.lt (reading rnd ix) threshold
       then [assessment_followup farmId zone (reading rnd ix)]
       else [])
      ++ zone_followups farmId threshold rnd (S ix) rest
  end.









(** The event a notification of kind [taskType] about [details] is. *)
Definition event (taskType : string) (details : obj) : value * value :=
  (VStr taskType, VObj details).










(** *** Weather and crop-health warnings *)

(** [parseFloat(process.env[key]) || dflt]: the configured value when it
    parses to a number other than zero, else [dflt]. *)
Definition weather_threshold (rt : Runtime) (e : gmap string string) (key : string)
    (dflt : Z) : num :=
  num_or (parseFloat rt (e !! key)) (Num.of_Z dflt).

(** [Math.random() * scale + offset] for the [i]-th draw. *)
Definition simulated (rnd : nat -> Q) (i : nat) (scale offset : Z) : num :=
  Num.add (Num.mul (Fin (rnd i)) (Num.of_Z scale)) (Num.of_Z offset).

(** The messages of the queued SMS jobs, oldest first. *)
Definition messages (qs : Queues) : list value :=
  map (fun j => get (Job.data j) "message") (notifications qs).


(** *** Follow-up jobs *)


(** The jobs the processors add: an SMS job, and, when [may_irrigate], a
    [start-irrigation] job. *)
Definition follow_up (may_irrigate : bool) (q : Queue) (j : Job.t) : Prop :=
  match q with
  | notificationQueue => Job.name j = "send-sms"
  | irrigationQueue => may_irrigate = true /\ Job.name j = "start-irrigation"
  | _ => False
  end.

(** [qs'] is [qs] with jobs added at the end of its queues, each job
    satisfying [P] of the queue it is added to. *)
Definition grows (P : Queue -> Job.t -> Prop) (qs qs' : Queues) : Prop :=
  forall q, exists js, jobs q qs' = (jobs q qs ++ js)%list /\ Forall (P q) js.

(** A computation that only adds jobs, each satisfying [P], whether it
    returns or throws. *)
Definition emits {A} (P : Queue -> Job.t -> Prop) (c : M A) : Prop :=
  forall w, grows P (queues w) (queues (fst (c w))).

(** A computation that leaves the queues as they are. *)
Definition silent {A} (c : M A) : Prop :=
  forall w, queues (fst (c w)) = queues w.

(** A computation that returns in every world. *)
Definition safe {A} (c : M A) : Prop :=
  forall w, exists a, snd (c w) = Ok a.

(** A computation that has added no job when it throws. *)
Definition atomic {A} (c : M A) : Prop :=
  forall w e, snd (c w) = Throw e -> queues (fst (c w)) = queues w.

(** [undefined] and [null]. *)
Definition nullish (v : value) : bool :=
  match v with
  | VUndef | VNull => true
  | _ => false
  end.

(** *** The endpoints *)

(** [req.body.k] as the destructuring of [test-sms] reads it. *)
Definition field (req_body : value) (k : string) : value :=
  match req_body with
  | VObj o => get o k
  | _ => VUndef
  end.

(** The tasks the scheduler accepts of a list it is given one by one,
    the first refusal ending the run. *)
Fixpoint accepted (refuses : obj -> option error) (tasks : list obj) : list obj :=
  match tasks with
  | [] => []
  | task :: rest =>
      match refuses task with
      | None => task :: accepted refuses rest
      | Some _ => []
      end
  end.

(* ===================================================================== *)
(** ** A reference runtime and sample worlds *)
(* ===================================================================== *)

(** An executable [Runtime], used to run the processors on concrete
    inputs: a number is printed as the shortest decimal that reads back as
    the same double, in the layout of [Number::toString], and a decimal
    numeral, with or without exponent, is read as the double nearest to
    it.  Upper-casing is that of ASCII; the crops of the jobs the server
    adds are ASCII. *)
Module Reference.

Definition digit (n : N) : ascii := ascii_of_N (48 + n).

(** The decimal digits of [n], most significant first. *)
Fixpoint digits_fuel (fuel : nat) (n : N) (acc : string) : string :=
  match fuel with
  | O => acc
  | S fuel' =>
      let acc' := String (digit (n mod 10)) acc in
      if (n / 10 =? 0)%N then acc' else digits_fuel fuel' (n / 10) acc'
  end.

Definition print_N (n : N) : string := digits_fuel (S (N.to_nat (N.log2 n))) n "".

Definition pow10 (e : Z) : Q := (10 ^ e)%Q.

(** The [n] with [10^(n-1) <= q < 10^n], for a positive [q]: an estimate
    from the binary exponent, put right by comparison. *)
Definition decimal_exponent (q : Q) : Z :=
  let n0 := (Num.binade q * 30103 / 100000)%Z in
  if Qle_bool (pow10 (n0 + 1)) q then (n0 + 2)%Z
  else if Qle_bool (pow10 n0) q then (n0 + 1)%Z
  else n0.

(** Of the two [k]-digit decimals [s * 10^(n-k)] around [q], the closer
    one first (the even one at a tie): the first that rounds to [q]. *)
Definition round_trips (q : Q) (n k : Z) : option Z :=
  let scale := pow10 (n - k) in
  let t := (q / scale)%Q in
  let lo := Qfloor t in
  let hi := (lo + 1)%Z in
  let ok (s : Z) :=
    match Num.round (inject_Z s * scale) with
    | Fin v => Qeq_bool v q
    | _ => false
    end in
  let lo_first :=
    match (t - inject_Z lo ?= inject_Z hi - t)%Q with
    | Lt => true
    | Gt => false
    | Eq => Z.even lo
    end in
  let '(s1, s2) := if lo_first then (lo, hi) else (hi, lo) in
  if ok s1 then Some s1 else if ok s2 then Some s2 else None.

(** The fewest digits that denote the double [q]: the integer [s] and
    the number [k] of its digits, [q] being [s * 10^(n-k)] rounded; 17
    digits tell any two doubles apart. *)
Fixpoint shortest (fuel : nat) (q : Q) (n k : Z) : Z * Z :=
  match fuel with
  | O => (Num.round_half_even (q / pow10 (n - k)), k)
  | S fuel' =>
      match round_trips q n k with
      | Some s => (s, k)
      | None => shortest fuel' q n (k + 1)
      end
  end.

Fixpoint zeros (n : nat) : string :=
  match n with
  | O => ""
  | S n' => String "0" (zeros n')
  end.

Fixpoint strip_zeros_rev (s : list ascii) : list ascii :=
  match s with
  | c :: s' => if Ascii.eqb c "0" then strip_zeros_rev s' else s
  | [] => []
  end.

(** [s] without its trailing zeros (never empty). *)
Definition strip_zeros (s : string) : string :=
  match strip_zeros_rev (rev (list_ascii_of_string s)) with
  | [] => "0"
  | l => string_of_list_ascii (rev l)
  end.

Definition print_Z (z : Z) : string :=
  (if (z <? 0)%Z then "-" else "") +:+ print_N (Z.abs_N z).

(** [Number::toString] on the digits [ds] of a positive number whose
    decimal point stands after the first [n] of them. *)
Definition layout (ds : string) (n : Z) : string :=
  let k := Z.of_nat (String.length ds) in
  if (k <=? n)%Z && (n <=? 21)%Z then ds +:+ zeros (Z.to_nat (n - k))
  else if (0 <? n)%Z && (n <=? 21)%Z then
    String.substring 0 (Z.to_nat n) ds +:+ "."
    +:+ String.substring (Z.to_nat n) (String.length ds) ds
  else if (-6 <? n)%Z && (n <=? 0)%Z then "0." +:+ zeros (Z.to_nat (- n)) +:+ ds
  else
    let exponent :=
      (if (0 <? n - 1)%Z then "+" else "-") +:+ print_N (Z.abs_N (n - 1)) in
    String.substring 0 1 ds
    +:+ (if (k =? 1)%Z then "" else "." +:+ String.substring 1 (String.length ds) ds)
    +:+ "e" +:+ exponent.

Definition print_positive (q : Q) : string :=
  let n := decimal_exponent q in
  let '(s, k) := shortest 17 q n 1 in
  let ds := print_N (Z.abs_N s) in
  (* [s] may have one digit more than [k], when it is a power of ten *)
  layout (strip_zeros ds) (n + (Z.of_nat (String.length ds) - k)).

Definition print_Q (q : Q) : string :=
  match (q ?= 0)%Q with
  | Eq => "0"
  | Gt => print_positive q
  | Lt => "-" +:+ print_positive (- q)
  end.

(** [String(n)]: the shortest decimal that reads back as [n]. *)
Definition toString (n : num) : string :=
  match n with
  | NaN => "NaN"
  | PInf => "Infinity"
  | NInf => "-Infinity"
  | Fin q => print_Q q
  end.

(** [fuel] digits of [n], zero-padded on the left. *)
Fixpoint padded (fuel : nat) (n : N) (acc : string) : string :=
  match fuel with
  | O => acc
  | S fuel' => padded fuel' (n / 10) (String (digit (n mod 10)) acc)
  end.

(** [q.toFixed(digits)]: the nearest multiple of [10^-digits] of the exact
    value, a tie going away from zero. *)
Definition fixed_Q (q : Q) (digits : nat) : string :=
  let n := Z.abs_N (Qnum q) in
  let d := Npos (Qden q) in
  let scale := (10 ^ N.of_nat digits)%N in
  let m := ((2 * n * scale + d) / (2 * d))%N in
  let sign := if (Qnum q <? 0)%Z then "-" else "" in
  sign +:+ print_N (m / scale)
  +:+ (match digits with
       | O => ""
       | _ => "." +:+ padded digits (m mod scale) ""
       end).

Definition toFixed (n : num) (digits : nat) : string :=
  match n with
  | Fin q => if Qle_bool (pow10 21) (Qabs q) then toString n else fixed_Q q digits
  | _ => toString n
  end.

Definition digit_value (c : ascii) : option N :=
  let n := N_of_ascii c in
  if (48 <=? n)%N && (n <=? 57)%N then Some (n - 48)%N else None.

(** The longest prefix of decimal digits: its value, its length and the
    rest. *)
Fixpoint read_digits (s : string) (acc : N) (len : nat) : N * nat * string :=
  match s with
  | EmptyString => (acc, len, s)
  | String c s' =>
      match digit_value c with
      | Some v => read_digits s' (acc * 10 + v)%N (S len)
      | None => (acc, len, s)
      end
  end.

(** The white space of ASCII: tab, line feed, vertical tab, form feed,
    carriage return and space. *)
Definition blank (c : ascii) : bool :=
  let n := nat_of_ascii c in ((9 <=? n)%nat && (n <=? 13)%nat) || (n =? 32)%nat.

Fixpoint skip_blanks (s : string) : string :=
  match s with
  | String c s' => if blank c then skip_blanks s' else s
  | EmptyString => s
  end.

(** An exponent part [e], [e+] or [e-] followed by digits, at the head of
    [s]: its value and the rest; no exponent part reads as 0. *)
Definition read_exponent (s : string) : Z * string :=
  match s with
  | String c s1 =>
      if Ascii.eqb c "e" || Ascii.eqb c "E" then
        let '(negative, s2) :=
          match s1 with
          | String "-" s' => (true, s')
          | String "+" s' => (false, s')
          | _ => (false, s1)
          end in
        let '(e, len, s3) := read_digits s2 0%N 0%nat in
        if (len =? 0)%nat then (0%Z, s)
        else (if negative then (- Z.of_N e)%Z else Z.of_N e, s3)
      else (0%Z, s)
  | EmptyString => (0%Z, s)
  end.

(** An optionally signed decimal numeral at the head of [s], rounded to
    a double, and the text after it; [None] when [s] starts with no
    numeral. *)
Definition read_number (s : string) : option (num * string) :=
  let '(negative, s1) :=
    match s with
    | String "-" s' => (true, s')
    | String "+" s' => (false, s')
    | _ => (false, s)
    end in
  if String.prefix "Infinity" s1
  then Some (if negative then NInf else PInf,
             String.substring 8 (String.length s1) s1)
  else
    let '(int_part, int_len, s2) := read_digits s1 0%N 0%nat in
    let '(frac_part, frac_len, s3) :=
      match s2 with
      | String "." s' => read_digits s' 0%N 0%nat
      | _ => (0%N, 0%nat, s2)
      end in
    if ((int_len + frac_len)%nat =? 0)%nat then None
    else
      let '(exponent, s4) := read_exponent s3 in
      let scale := (10 ^ N.of_nat frac_len)%N in
      let magnitude :=
        (inject_Z (Z.of_N (int_part * scale + frac_part))
         * pow10 (exponent - Z.of_nat frac_len))%Q in
      Some (Num.round (if negative then - magnitude else magnitude)%Q, s4).

Definition parseFloat (s : string) : num :=
  match read_number (skip_blanks s) with
  | Some (n, _) => n
  | None => NaN
  end.

Definition Number (s : string) : num :=
  let s' := skip_blanks s in
  if String.eqb s' "" then Num.of_Z 0
  else match read_number s' with
       | Some (n, rest) => if String.eqb (skip_blanks rest) "" then n else NaN
       | None => NaN
       end.

Definition node : Runtime :=
  {| parseFloat_string := parseFloat;
     Number_of_string := Number;
     Number_toString := toString;
     Number_toFixed := toFixed;
     String_toUpperCase := Str.toUpperCase |}.

(** The double nearest to [q], as a draw of [Math.random()] or a reading
    put in a job. *)
Definition dbl (q : Q) : Q :=
  match Num.round q with
  | Fin v => v
  | _ => 0%Q
  end.

(** The number a binary64 value of the kernel denotes. *)
Definition of_float (f : float) : num :=
  match Prim2SF f with
  | S754_zero _ => Fin 0
  | S754_infinity false => PInf
  | S754_infinity true => NInf
  | S754_nan => NaN
  | S754_finite negative m e =>
      let magnitude := (inject_Z (Zpos m) * Num.pow2 e)%Q in
      Fin (Qred (if negative then - magnitude else magnitude))
  end.

(** Pairs of doubles at which rounding matters: products and sums that
    fall on or next to a threshold of the processors, a tie, an overflow,
    subnormal numbers. *)
Definition samples : list (float * float) :=
  [ (0x1.9999999999999p-3, 100); (0x1.6666666666666p-2, 100);
    (0x1.1eb851eb851ecp-4, 100); (0x1.3333333333333p-1, 100);
    (0x1.999999999999ap-4, 100); (0x1.3333333333333p-2, 100);
    (0x1.0000000000001p-1, 15); (0x1.e000000000001p2, 20);
    (0x1.fffffffffffffp-1, 30); (40, 0x1.dffffffffffffp4); (70, 20);
    (0x1.b1ae4d6e2ef5p69, 15); (0x1.b1ae4d6e2ef5p69, 20);
    (65, 0x1.6666666666666p-1); (-10, 0x1.6666666666666p-1);
    (0x1.ccccccccccccdp-1, -0x1p-1); (-0x1.9999999999998p-2, 30);
    (0x1.fffffffffffffp1023, 2); (0x1.fffffffffffffp1023, 0x1p970);
    (0x1.fffffffffffffp1023, 0x1.fffffffffffffp969);
    (-0x1.fffffffffffffp1023, -0x1p970);
    (0x1p-1074, 0x1p-1); (0x1p-1074, 0x1.8p0); (0x1.8p-1073, 0x1p-1);
    (0x1p-1022, 0x1.fffffffffffffp-1); (0x1.0000000000001p-1022, 0x1p-1);
    (0x1p53, 1); (0x1.0000000000001p53, 1); (0, 0x1p-1074) ]%float.

Definition six_am : Date :=
  {| toISOString := "2025-03-01T06:00:00.000Z"; toLocaleTimeString := "6:00:00 AM" |}.

Definition noon : Date :=
  {| toISOString := "2025-03-01T12:00:00.000Z"; toLocaleTimeString := "12:00:00 PM" |}.

(** A world with empty queues whose provider rejects every send. *)
Definition world (e : gmap string string) (rnd : nat -> Q) (now : Date) : World :=
  {| env := e; random := rnd; random_ix := 0;
     clock := fun _ => now; clock_ix := 0;
     SMS_send := fun _ => Throw (Error "getaddrinfo ENOTFOUND api.africastalking.com");
     queues := no_jobs |}.

(** The first draws of [Math.random()] are [l]; every later one is 1/2. *)
Definition draws (l : list Q) : nat -> Q := fun i => nth i l (1 # 2).

(** A world like [world] whose clock shows [first] at its first reading
    and [later] from then on. *)
Definition world_at (first later : Date) : World :=
  {| env := ∅; random := draws []; random_ix := 0;
     clock := fun i => match i with O => first | S _ => later end; clock_ix := 0;
     SMS_send := fun _ => Throw (Error "getaddrinfo ENOTFOUND api.africastalking.com");
     queues := no_jobs |}.

(** The jobs the webhooks of [server.js] add. *)
Definition soil_moisture_job : Job.t :=
  {| Job.name := "collect-soil-moisture";
     Job.data := {[ "farmId" := VStr "farm-001"; "sensorType" := VStr "soil_moisture";
                    "timestamp" := VStr "2025-03-01T06:00:00.000Z" ]} |}.




(** A follow-up job of the assessment path, and one carrying a zero
    reading. *)
Definition irrigation_job (moistureLevel : Q) : Job.t :=
  assessment_followup (VStr "farm-001") (VStr "zone-b") (Fin moistureLevel).

(** Rendering the same event twice in a row. *)
Definition render_twice (taskType : string) (details : obj) : M (value * value) :=
  first <- formatMessage node taskType details ;;
  second <- formatMessage node taskType details ;;
  ret (first, second).

(** A [collect-weather-data] job as the sensor webhook adds it. *)
Definition weather_job : Job.t :=
  {| Job.name := "collect-weather-data";
     Job.data := {[ "farmId" := VStr "farm-001"; "sensorType" := VStr "weather";
                    "timestamp" := VStr "2025-03-01T06:00:00.000Z" ]} |}.

(** A [collect-crop-health] job as the sensor webhook adds it. *)
Definition crop_health_job : Job.t :=
  {| Job.name := "collect-crop-health";
     Job.data := {[ "farmId" := VStr "farm-001"; "sensorType" := VStr "crop_health";
                    "timestamp" := VStr "2025-03-01T06:00:00.000Z" ]} |}.

(** A [getJobCounts] that counts the jobs added as waiting. *)
Definition getJobCounts (q : Queue) (qs : Queues) : outcome value :=
  Ok (VObj {[ "waiting" := VNum (Num.of_nat (length (jobs q qs))) ]}).

(** A [getJobCounts] that fails, as it does when Redis is gone. *)
Definition getJobCounts_closed (q : Queue) (qs : Queues) : outcome value :=
  Throw (Error "Connection is closed.").

(** A [fetch-market-prices] job without [markets]. *)
Definition market_job_without_markets : Job.t :=
  {| Job.name := "fetch-market-prices";
     Job.data := {[ "crops" := VArr (map VStr ["maize"; "beans"; "tomatoes"]) ]} |}.

(** A [check-equipment-status] job whose equipment list holds a number. *)
Definition maintenance_job_with_number : Job.t :=
  {| Job.name := "check-equipment-status";
     Job.data := {[ "farmId" := VStr "farm-001";
                    "equipment" := VArr [VStr "sensors"; VNum (Num.of_Z 7)] ]} |}.

(** A scheduler that has accepted nothing yet and refuses the tasks whose
    name is in [names]. *)
Definition scheduler_refusing (names : list string) : Scheduler :=
  {| scheduled := [];
     refuses := fun task =>
       if existsb (fun n => match get task "name" with
                            | VStr s => String.eqb s n
                            | _ => false
                            end) names
       then Some (Error "Request failed with status code 500")
       else None |}.

End Reference.

(* ===================================================================== *)
(** ** Facts about numbers *)
(* ===================================================================== *)

Lemma Qlt_bool_iff (x y : Q) : Num.Qlt_bool x y = true <-> (x < y)%Q.
Proof.
  unfold Num.Qlt_bool. rewrite negb_true_iff.
  destruct (Qle_bool y x) eqn:E.
  - apply Qle_bool_iff in E. split; [discriminate | intros H; lra].
  - split; [intros _ | reflexivity].
    destruct (Qlt_le_dec x y) as [Hlt | Hle]; [exact Hlt |].
    apply Qle_bool_iff in Hle. congruence.
Qed.

Lemma Qlt_bool_false_iff (x y : Q) : Num.Qlt_bool x y = false <-> (y <= x)%Q.
Proof.
  destruct (Num.Qlt_bool x y) eqn:E.
  - apply Qlt_bool_iff in E. split; [discriminate | intros H; lra].
  - split; [intros _ | reflexivity].
    destruct (Qlt_le_dec x y) as [Hlt | Hle]; [| exact Hle].
    apply Qlt_bool_iff in Hlt. congruence.
Qed.


Lemma lt_Fin_false (x y : Q) : Num.lt (Fin x) (Fin y) = false <-> (y <= x)%Q.
Proof. apply Qlt_bool_false_iff. Qed.

(* ===================================================================== *)
(** *** Rounding to a double

    [Num.round] is monotone, exact on the doubles and within half a unit
    in the last place of its argument. *)

Section Rounding.

Local Open Scope Q_scope.
Local Abbreviation pow2 := Num.pow2.
Local Abbreviation binade := Num.binade.
Local Abbreviation round_half_even := Num.round_half_even.
Local Abbreviation ulp_exponent := Num.ulp_exponent.
Local Abbreviation nearest := Num.nearest.
Local Abbreviation roundQ := Num.roundQ.
Local Abbreviation round := Num.round.
Local Abbreviation double := Num.double.

(** Powers of two. *)

Lemma pow2_pos e : 0 < pow2 e.
Proof. apply Qpower_0_lt. reflexivity. Qed.

Lemma pow2_plus a b : pow2 (a + b) == pow2 a * pow2 b.
Proof. apply Qpower_plus. discriminate. Qed.

Lemma pow2_le a b : (a <= b)%Z -> pow2 a <= pow2 b.
Proof. intros H. apply Qpower_le_compat_l; [exact H | discriminate]. Qed.

Lemma pow2_lt a b : (a < b)%Z -> pow2 a < pow2 b.
Proof. intros H. apply Qpower_lt_compat_l; [exact H | reflexivity]. Qed.

Lemma pow2_Z e : (0 <= e)%Z -> pow2 e == inject_Z (2 ^ e).
Proof. intros H. unfold pow2. now rewrite Zpower_Qpower. Qed.

Lemma pow2_div a b : pow2 a / pow2 b == pow2 (a - b).
Proof.
  replace a with ((a - b) + b)%Z at 1 by ring. rewrite pow2_plus.
  field. pose proof (pow2_pos b). lra.
Qed.

(** **** The binade of a positive rational *)

Lemma Q_as_fraction q : q == inject_Z (Qnum q) / inject_Z (Zpos (Qden q)).
Proof. destruct q as [n dn]. cbn [Qnum Qden]. rewrite <- Qmake_Qdiv. reflexivity. Qed.

Lemma log2_bounds z : (0 < z)%Z ->
  pow2 (Z.log2 z) <= inject_Z z /\ inject_Z z < pow2 (Z.log2 z + 1).
Proof.
  intros Hz. pose proof (Z.log2_spec z Hz) as [Hlo Hhi].
  pose proof (Z.log2_nonneg z).
  rewrite !pow2_Z by lia. rewrite <- Zle_Qle, <- Zlt_Qlt.
  replace (Z.log2 z + 1)%Z with (Z.succ (Z.log2 z)) by lia. split; assumption.
Qed.

Lemma binade_spec q : 0 < q -> pow2 (binade q) <= q /\ q < pow2 (binade q + 1).
Proof.
  intros Hq. unfold binade.
  set (b := (Z.log2 (Qnum q) - Z.log2 (Zpos (Qden q)))%Z).
  assert (Hn : (0 < Qnum q)%Z) by (destruct q as [[|n|n] dn]; cbn in *; try lia;
                                     unfold Qlt in Hq; cbn in Hq; lia).
  pose proof (log2_bounds (Qnum q) Hn) as [Hn1 Hn2].
  pose proof (log2_bounds (Zpos (Qden q)) eq_refl) as [Hd1 Hd2].
  pose proof (Q_as_fraction q) as Hfrac.
  pose proof (pow2_pos (Z.log2 (Zpos (Qden q)))) as Hp.
  assert (Hden : 0 < inject_Z (Zpos (Qden q))) by (rewrite <- (Zlt_Qlt 0); lia).
  set (A := pow2 (Z.log2 (Qnum q))) in *.
  set (D := pow2 (Z.log2 (Zpos (Qden q)))) in *.
  assert (HA2 : pow2 (Z.log2 (Qnum q) + 1) == 2 * A)
    by (rewrite pow2_plus; change (pow2 1) with 2; fold A; ring).
  assert (HD2 : pow2 (Z.log2 (Zpos (Qden q)) + 1) == 2 * D)
    by (rewrite pow2_plus; change (pow2 1) with 2; fold D; ring).
  rewrite HA2 in Hn2. rewrite HD2 in Hd2.
  assert (HA : 0 < A) by apply pow2_pos.
  assert (Hb1 : pow2 (b - 1) * (2 * D) == A).
  { rewrite <- HD2, <- pow2_plus. unfold A, b. f_equiv. ring. }
  assert (Hb2 : pow2 (b + 1) * D == 2 * A).
  { rewrite <- HA2. unfold D. rewrite <- pow2_plus. unfold b. f_equiv. ring. }
  pose proof (pow2_pos (b - 1)) as Hpb1. pose proof (pow2_pos (b + 1)) as Hpb2.
  set (n := inject_Z (Qnum q)) in *. set (dn := inject_Z (Zpos (Qden q))) in *.
  assert (Hlow : pow2 (b - 1) <= q).
  { rewrite Hfrac. apply Qle_shift_div_l; [exact Hden |]. nra. }
  assert (Hhigh : q < pow2 (b + 1)).
  { rewrite Hfrac. apply Qlt_shift_div_r; [exact Hden |]. nra. }
  destruct (Qle_bool (pow2 b) q) eqn:E.
  - apply Qle_bool_iff in E. split; assumption.
  - split; [exact Hlow |].
    replace (b - 1 + 1)%Z with b by ring.
    destruct (Qlt_le_dec q (pow2 b)) as [Hlt | Hle]; [exact Hlt |].
    apply Qle_bool_iff in Hle. congruence.
Qed.

Lemma binade_unique q b : pow2 b <= q -> q < pow2 (b + 1) -> binade q = b.
Proof.
  intros Hlo Hhi.
  assert (Hq : 0 < q) by (pose proof (pow2_pos b); lra).
  destruct (binade_spec q Hq) as [Hlo' Hhi'].
  destruct (Z.lt_trichotomy (binade q) b) as [Hlt | [Heq | Hgt]]; [| exact Heq |].
  - pose proof (pow2_le (binade q + 1) b ltac:(lia)). lra.
  - pose proof (pow2_le (b + 1) (binade q) ltac:(lia)). lra.
Qed.

Lemma binade_mono x y : 0 < x -> x <= y -> (binade x <= binade y)%Z.
Proof.
  intros Hx Hxy.
  destruct (binade_spec x Hx) as [Hlo _].
  destruct (binade_spec y ltac:(lra)) as [_ Hhi].
  destruct (Z.le_gt_cases (binade x) (binade y)) as [H | H]; [exact H |].
  pose proof (pow2_le (binade y + 1) (binade x) ltac:(lia)). lra.
Qed.


(** **** Rounding to the nearest integer, ties to even *)

Ltac compared :=
  repeat match goal with
         | H : (_ ?= _) = Eq |- _ => apply Qeq_alt in H
         | H : (_ ?= _) = Lt |- _ => apply Qlt_alt in H
         | H : (_ ?= _) = Gt |- _ => apply Qgt_alt in H
         end.

Ltac inject_plus :=
  rewrite ?inject_Z_plus in *; change (inject_Z 1) with 1 in *.


Lemma round_half_even_le t k : t <= inject_Z k -> (round_half_even t <= k)%Z.
Proof.
  intros Ht. unfold round_half_even.
  pose proof (Qfloor_le t) as Hf. pose proof (Qlt_floor t) as Hf'.
  inject_plus.
  assert (Hfk : (Qfloor t <= k)%Z) by (rewrite Zle_Qle; lra).
  destruct (Z.eq_dec (Qfloor t) k) as [Heq | Hne].
  - rewrite Heq in *.
    assert (E : (t - inject_Z k ?= 1 # 2) = Lt) by (apply (proj1 (Qlt_alt _ _)); lra).
    rewrite E. lia.
  - destruct (t - inject_Z (Qfloor t) ?= 1 # 2); [destruct (Z.even _) | |]; lia.
Qed.

Lemma round_half_even_ge t k : inject_Z k <= t -> (k <= round_half_even t)%Z.
Proof.
  intros Ht. unfold round_half_even.
  pose proof (Qfloor_resp_le _ _ Ht) as Hf. rewrite Qfloor_Z in Hf.
  destruct (t - inject_Z (Qfloor t) ?= 1 # 2); [destruct (Z.even _) | |]; lia.
Qed.

Lemma round_half_even_mono t t' : t <= t' -> (round_half_even t <= round_half_even t')%Z.
Proof.
  intros Ht. pose proof (Qfloor_resp_le _ _ Ht) as Hf.
  destruct (Z.eq_dec (Qfloor t) (Qfloor t')) as [Heq | Hne].
  - unfold round_half_even. rewrite <- Heq.
    destruct (t - inject_Z (Qfloor t) ?= 1 # 2) eqn:E;
      destruct (t' - inject_Z (Qfloor t) ?= 1 # 2) eqn:E';
      try (destruct (Z.even (Qfloor t))); try lia; exfalso; compared; lra.
  - apply Z.le_trans with (Qfloor t + 1)%Z.
    + apply round_half_even_le. pose proof (Qlt_floor t) as H. inject_plus. lra.
    + apply Z.le_trans with (Qfloor t'); [lia |].
      apply round_half_even_ge, Qfloor_le.
Qed.

(** **** The nearest double of a positive rational *)

Lemma ulp_exponent_mono x y : 0 < x -> x <= y -> (ulp_exponent x <= ulp_exponent y)%Z.
Proof. intros Hx Hxy. unfold ulp_exponent. pose proof (binade_mono x y Hx Hxy). lia. Qed.

Lemma nearest_nonneg x : 0 < x -> 0 <= nearest x.
Proof.
  intros Hx. unfold nearest. pose proof (pow2_pos (ulp_exponent x)) as Hp.
  apply Qmult_le_0_compat; [| lra].
  rewrite <- (Zle_Qle 0). apply round_half_even_ge. change (inject_Z 0) with 0.
  apply Qle_shift_div_l; [exact Hp | rewrite Qmult_0_l; lra].
Qed.

(** A value of the grid above [x] is above the double nearest to [x]. *)
Lemma nearest_le_grid x k : 0 < x -> (ulp_exponent x <= k)%Z -> x <= pow2 k ->
  nearest x <= pow2 k.
Proof.
  intros Hx Hk Hxk. unfold nearest. set (e := ulp_exponent x) in *.
  pose proof (pow2_pos e) as Hp.
  assert (Hdiv : pow2 k == inject_Z (2 ^ (k - e)) * pow2 e).
  { rewrite <- pow2_Z by lia. rewrite <- pow2_plus. now replace (k - e + e)%Z with k by ring. }
  rewrite Hdiv. apply Qmult_le_r; [exact Hp |]. rewrite <- Zle_Qle.
  apply round_half_even_le. apply Qle_shift_div_r; [exact Hp |]. now rewrite <- Hdiv.
Qed.

Lemma nearest_ge_grid x k : 0 < x -> (ulp_exponent x <= k)%Z -> pow2 k <= x ->
  pow2 k <= nearest x.
Proof.
  intros Hx Hk Hxk. unfold nearest. set (e := ulp_exponent x) in *.
  pose proof (pow2_pos e) as Hp.
  assert (Hdiv : pow2 k == inject_Z (2 ^ (k - e)) * pow2 e).
  { rewrite <- pow2_Z by lia. rewrite <- pow2_plus. now replace (k - e + e)%Z with k by ring. }
  rewrite Hdiv. apply Qmult_le_r; [exact Hp |]. rewrite <- Zle_Qle.
  apply round_half_even_ge. apply Qle_shift_div_l; [exact Hp |]. now rewrite <- Hdiv.
Qed.

Lemma nearest_mono x y : 0 < x -> x <= y -> nearest x <= nearest y.
Proof.
  intros Hx Hxy. assert (Hy : 0 < y) by lra.
  pose proof (ulp_exponent_mono x y Hx Hxy) as He.
  destruct (Z.eq_dec (ulp_exponent x) (ulp_exponent y)) as [Heq | Hne].
  - unfold nearest. rewrite Heq. pose proof (pow2_pos (ulp_exponent y)) as Hp.
    apply Qmult_le_r; [exact Hp |]. rewrite <- Zle_Qle.
    apply round_half_even_mono. apply Qmult_le_r; [apply Qinv_lt_0_compat; exact Hp | exact Hxy].
  - destruct (binade_spec x Hx) as [_ Hxhi]. destruct (binade_spec y Hy) as [Hylo _].
    assert (Hb : (binade x < binade y)%Z) by (unfold ulp_exponent in *; lia).
    pose proof (pow2_le (binade x + 1) (binade y) ltac:(lia)).
    apply Qle_trans with (pow2 (binade y)).
    + apply nearest_le_grid; [exact Hx | unfold ulp_exponent in *; lia | lra].
    + apply nearest_ge_grid; [exact Hy | unfold ulp_exponent in *; lia | exact Hylo].
Qed.


(** **** Rounding a rational *)

Lemma roundQ_mono x y : x <= y -> roundQ x <= roundQ y.
Proof.
  intros Hxy. unfold roundQ.
  destruct (x ?= 0) eqn:Ex; destruct (y ?= 0) eqn:Ey; compared; try lra.
  - apply nearest_nonneg. lra.
  - pose proof (nearest_nonneg (- x)). lra.
  - pose proof (nearest_mono (- y) (- x)). lra.
  - pose proof (nearest_nonneg (- x)). pose proof (nearest_nonneg y). lra.
  - apply nearest_mono; lra.
Qed.


(** **** Rounding to a double *)

Lemma Qle_bool_false x y : Qle_bool x y = false <-> y < x.
Proof.
  split; intros H.
  - apply Qnot_le_lt. intros Hle. apply Qle_bool_iff in Hle. congruence.
  - destruct (Qle_bool x y) eqn:E; [| reflexivity].
    apply Qle_bool_iff in E. lra.
Qed.

Lemma round_spec q v :
  round q = Fin v -> v == roundQ q /\ - pow2 1024 < roundQ q /\ roundQ q < pow2 1024.
Proof.
  unfold round.
  destruct (Qle_bool (pow2 1024) (roundQ q)) eqn:E1; [discriminate |].
  destruct (Qle_bool (roundQ q) (- pow2 1024)) eqn:E2; [discriminate |].
  intros [= <-]. apply Qle_bool_false in E1, E2.
  split; [apply Qred_correct | split; assumption].
Qed.

Lemma round_Fin q :
  - pow2 1024 < roundQ q -> roundQ q < pow2 1024 -> round q = Fin (Qred (roundQ q)).
Proof.
  intros Hlo Hhi. unfold round.
  apply Qle_bool_false in Hlo, Hhi. now rewrite Hhi, Hlo.
Qed.

(** A number between two that round to doubles rounds to a double between
    those. *)
Lemma round_between lo hi lo' hi' x :
  round lo = Fin lo' -> round hi = Fin hi' -> lo <= x -> x <= hi ->
  exists v, round x = Fin v /\ lo' <= v /\ v <= hi'.
Proof.
  intros Hlo Hhi Hx1 Hx2.
  apply round_spec in Hlo as (Elo & Hlo1 & Hlo2).
  apply round_spec in Hhi as (Ehi & Hhi1 & Hhi2).
  pose proof (roundQ_mono _ _ Hx1) as M1. pose proof (roundQ_mono _ _ Hx2) as M2.
  exists (Qred (roundQ x)). split; [apply round_Fin; lra |].
  rewrite Qred_correct, Elo, Ehi. split; assumption.
Qed.

Lemma round_mono x y vx vy :
  round x = Fin vx -> round y = Fin vy -> x <= y -> vx <= vy.
Proof.
  intros Hx Hy Hxy.
  apply round_spec in Hx as (-> & _). apply round_spec in Hy as (-> & _).
  now apply roundQ_mono.
Qed.


(** The doubles of [[0, 1)] end at [1 - 2^-53]. *)
Lemma double_below_1 r : double r -> 0 <= r -> r < 1 -> r <= 1 - pow2 (-53).
Proof.
  intros Hd H0 H1. apply round_spec in Hd as (E & _).
  destruct (Qlt_le_dec (1 - pow2 (-53)) r) as [Hbig | Hle]; [exfalso | exact Hle].
  assert (Hpos : 0 < r) by (change (pow2 (-53)) with (1 # 9007199254740992) in Hbig; lra).
  unfold roundQ in E. destruct (r ?= 0) eqn:Er; compared; try lra.
  assert (Hb : binade r = (-1)%Z).
  { apply binade_unique.
    - change (pow2 (-1)) with (1 # 2). change (pow2 (-53)) with (1 # 9007199254740992) in Hbig. lra.
    - exact H1. }
  unfold nearest, ulp_exponent in E. rewrite Hb in E.
  change (Z.max (-1 - 52) (-1074)) with (-53)%Z in E.
  set (m := round_half_even (r / pow2 (-53))) in E. clearbody m.
  change (pow2 (-53)) with (1 # 9007199254740992) in *.
  assert (Hm : inject_Z 9007199254740991 < inject_Z m /\ inject_Z m < inject_Z 9007199254740992).
  { change (inject_Z 9007199254740991) with (9007199254740991 # 1).
    change (inject_Z 9007199254740992) with (9007199254740992 # 1). split; lra. }
  destruct Hm as [Hm1 Hm2]. rewrite <- Zlt_Qlt in Hm1, Hm2. lia.
Qed.

End Rounding.


(** A sum and a product of numbers lie between the doubles their bounds
    round to. *)
Lemma add_between (x y lo hi lo' hi' : Q) :
  Num.round lo = Fin lo' -> Num.round hi = Fin hi' ->
  (lo <= x + y)%Q -> (x + y <= hi)%Q ->
  exists v, Num.add (Fin x) (Fin y) = Fin v /\ (lo' <= v)%Q /\ (v <= hi')%Q.
Proof. apply round_between. Qed.

Lemma mul_between (x y lo hi lo' hi' : Q) :
  Num.round lo = Fin lo' -> Num.round hi = Fin hi' ->
  (lo <= x * y)%Q -> (x * y <= hi)%Q ->
  exists v, Num.mul (Fin x) (Fin y) = Fin v /\ (lo' <= v)%Q /\ (v <= hi')%Q.
Proof. apply round_between. Qed.


(** ** Proof automation *)
(* ===================================================================== *)

(** A rounding of constants, by computation. *)
Ltac rounds := vm_compute; reflexivity.

Ltac case_kind :=
  repeat match goal with
         | |- context [String.eqb ?a ?b] =>
             first
               [ is_var a; destruct (String.eqb_spec a b) as [-> | ?]
               | let r := eval vm_compute in (String.eqb a b) in
                 change (String.eqb a b) with r ]
         end;
  cbv beta iota.


Ltac case_outcome :=
  match goal with
  | |- context [match ?o with Ok _ => _ | Throw _ => _ end] => destruct o eqn:?
  end.

Ltac simpl_world :=
  cbn [fst snd env random random_ix clock clock_ix SMS_send queues
       with_random_ix with_clock_ix with_queues
       iot_sensors irrigation market_data maintenance notifications enqueue jobs].

Ltac run :=
  cbv [bind ret lift throw try_catch Math_random new_Date process_env Queue_add
       smsService_send];
  simpl_world.

(* ===================================================================== *)
(** ** The processors *)
(* ===================================================================== *)

Section Facts.

Context (rt : Runtime).

(** *** Rendering and sending one notification *)

Lemma js_add_string_r v s : js_add rt v (VStr s) = VStr (toString rt v +:+ s).
Proof. destruct v as [| |[]| | | |]; reflexivity. Qed.

Lemma switch_taskType_world taskType details w :
  fst (switch_taskType rt taskType details w)
  = if uses_clock taskType then with_clock_ix (S (clock_ix w)) w else w.
Proof.
  unfold switch_taskType, uses_clock.
  case_kind; run; try case_outcome; reflexivity.
Qed.

Lemma switch_taskType_result taskType details w w' :
  uses_clock taskType = false \/
  toLocaleTimeString (clock w (clock_ix w)) = toLocaleTimeString (clock w' (clock_ix w')) ->
  snd (switch_taskType rt taskType details w) = snd (switch_taskType rt taskType details w').
Proof.
  unfold switch_taskType, uses_clock.
  case_kind; run; intros [H | H]; try discriminate H;
    try case_outcome; cbn [snd]; try rewrite H; reflexivity.
Qed.

Lemma switch_taskType_ok taskType details w :
  well_formed_event taskType details = true ->
  exists v, snd (switch_taskType rt taskType details w) = Ok v.
Proof.
  unfold switch_taskType, well_formed_event, optional_toFixed, method_replace.
  case_kind; run; intros H; eauto;
    match goal with
    | |- context [get details ?k] => destruct (get details k); try discriminate H; eauto
    end.
Qed.

Lemma switch_taskType_throws taskType details w :
  well_formed_event taskType details = false ->
  exists msg, snd (switch_taskType rt taskType details w) = Throw (TypeError msg).
Proof.
  unfold switch_taskType, well_formed_event, optional_toFixed, method_replace.
  case_kind; run; intros H; try discriminate H;
    match goal with
    | |- context [get details ?k] => destruct (get details k); try discriminate H; eauto
    end.
Qed.

Lemma formatMessage_run taskType details w :
  formatMessage rt taskType details w =
  (fst (switch_taskType rt taskType details w),
   match snd (switch_taskType rt taskType details w) with
   | Ok v => Ok (VStr (toString rt v +:+ " [Farm: "
                       +:+ toString rt (js_or (get details "farmId") (VStr "farm-001"))
                       +:+ "]"))
   | Throw e => Throw e
   end).
Proof.
  unfold formatMessage. run.
  destruct (switch_taskType rt taskType details w) as [w1 [v | e]]; cbn [fst snd];
    [rewrite js_add_string_r |]; reflexivity.
Qed.

Lemma sendTaskNotification_run taskType details w :
  well_formed_event taskType details = true ->
  exists message,
    snd (formatMessage rt taskType details w) = Ok (VStr message) /\
    sendTaskNotification rt taskType details w =
      (with_queues
         (enqueue notificationQueue
            (sms (env w) taskType details message
               (toISOString (clock w (Nat.pred (ticks taskType) + clock_ix w))))
            (queues w))
         (with_clock_ix (ticks taskType + clock_ix w) w),
       Ok tt).
Proof.
  intros Hwf. destruct (switch_taskType_ok taskType details w Hwf) as [v Hv].
  unfold sendTaskNotification. run. rewrite formatMessage_run.
  pose proof (switch_taskType_world taskType details w) as Hw.
  destruct (switch_taskType rt taskType details w) as [w1 o]. cbn [fst snd] in *.
  subst o w1. eexists. split; [reflexivity |].
  unfold ticks. destruct (uses_clock taskType); reflexivity.
Qed.

(** *** [collect-soil-moisture] *)

(** [(comparison) || 30] is truthy whatever the comparison gives. *)
Lemma condition_always_truthy (b : bool) (n : num) :
  Num.to_bool n = true -> truthy (js_or (VBool b) (VNum n)) = true.
Proof. intros H. destruct b; [reflexivity | exact H]. Qed.


(** *** Alert loops *)


(** *** [assess-irrigation-needs] *)

Lemma jobs_enqueue_all q js qs :
  jobs q (enqueue_all q js qs) = (jobs q qs ++ js)%list.
Proof.
  unfold enqueue_all. revert qs. induction js as [| j js IH]; intros qs; cbn [fold_left].
  - now rewrite app_nil_r.
  - rewrite IH. destruct q; cbn [jobs enqueue iot_sensors irrigation market_data
      maintenance notifications]; now rewrite <- app_assoc.
Qed.


Lemma for_of_assess_zone farmId zones count w :
  let threshold := soil_moisture_low rt (env w) 35 in
  let followups := zone_followups farmId threshold (random w) (random_ix w) zones in
  for_of zones (assess_zone rt farmId) count w =
  (with_queues
     (enqueue_all irrigationQueue followups (queues w))
     (with_random_ix (length zones + random_ix w) w),
   Ok (length followups + count)%nat).
Proof.
  revert count w. induction zones as [| zone zones IH]; intros count w; cbn zeta.
  - destruct w; reflexivity.
  - cbn [for_of zone_followups]. unfold assess_zone at 1. run.
    fold (soil_moisture_low rt (env w) 35). fold (reading (random w) (random_ix w)).
    destruct (Num.lt (reading (random w) (random_ix w)) (soil_moisture_low rt (env w) 35));
      run; rewrite IH; simpl_world; unfold enqueue_all; cbn [app fold_left length];
      rewrite ?Nat.add_succ_r; reflexivity.
Qed.


(** *** [check-equipment-status] *)


(** A reading [Math.random() * 100] is a number in [[0, 100)]. *)
Lemma reading_bounds (rnd : nat -> Q) (i : nat) :
  (0 <= rnd i)%Q /\ (rnd i < 1)%Q /\ Num.double (rnd i) ->
  exists x, reading rnd i = Fin x /\ (0 <= x)%Q /\ (x < 100)%Q.
Proof.
  intros (H0 & H1 & Hd). pose proof (double_below_1 _ Hd H0 H1) as Hhi.
  change (Num.pow2 (-53)) with (1 # 9007199254740992)%Q in Hhi.
  unfold reading, Num.of_Z.
  destruct (mul_between (rnd i) (inject_Z 100)
              0 ((1 - (1 # 9007199254740992)) * 100) 0 (100 - (1 # 70368744177664)))
    as (x & -> & Hx0 & Hx1);
    [rounds | rounds | unfold inject_Z; lra | unfold inject_Z; lra |].
  exists x. split; [reflexivity | split; lra].
Qed.



(** *** [fetch-market-prices] *)





(** *** [start-irrigation] *)



(** *** One event, one SMS job *)


(** An event whose message does not render is not sent at all: the error
    leaves [sendTaskNotification] and the queues are unchanged. *)
Lemma sendTaskNotification_throws taskType details w :
  well_formed_event taskType details = false ->
  exists msg,
    snd (sendTaskNotification rt taskType details w) = Throw (TypeError msg) /\
    queues (fst (sendTaskNotification rt taskType details w)) = queues w.
Proof.
  intros Hwf. destruct (switch_taskType_throws taskType details w Hwf) as [msg Hmsg].
  pose proof (switch_taskType_world taskType details w) as Hw.
  unfold sendTaskNotification. run. rewrite formatMessage_run.
  destruct (switch_taskType rt taskType details w) as [w1 o]. cbn [fst snd] in *.
  subst o w1. exists msg. destruct (uses_clock taskType); split; reflexivity.
Qed.

(** C2, as amended.  Two renderings of the same kind and details give the
    same result (the same message, or the same error) whenever the kind is
    neither [sensor_data_collected] nor [task_completed]; for these two
    kinds the template embeds the clock's time string, and two renderings
    agree whenever the clock shows the same time string at both. *)
Theorem formatMessage_deterministic taskType details w w' :
  uses_clock taskType = false \/
  toLocaleTimeString (clock w (clock_ix w))
  = toLocaleTimeString (clock w' (clock_ix w')) ->
  snd (formatMessage rt taskType details w) = snd (formatMessage rt taskType details w').
Proof.
  intros H. rewrite !formatMessage_run. cbn [snd].
  rewrite (switch_taskType_result taskType details w w' H). reflexivity.
Qed.



(** The events the task processors build are well formed: seven of the
    kinds they use are well formed whatever the details, the
    [sensor_data_collected] event carries a number as [moistureLevel], and
    the [irrigation_started] event a string as [reason]. *)
Lemma processor_events_well_formed :
  (forall details,
     well_formed_event "irrigation_completed" details = true /\
     well_formed_event "market_price_alert" details = true /\
     well_formed_event "maintenance_required" details = true /\
     well_formed_event "equipment_failure" details = true /\
     well_formed_event "weather_warning" details = true /\
     well_formed_event "task_completed" details = true /\
     well_formed_event "system_status" details = true) /\
  (forall farmId sensorType moistureLevel temperature humidity,
     well_formed_event "sensor_data_collected"
       {[ "farmId" := farmId; "sensorType" := sensorType;
          "moistureLevel" := VNum moistureLevel; "temperature" := VNum temperature;
          "humidity" := VNum humidity ]} = true) /\
  (forall farmId moistureLevel,
     well_formed_event "irrigation_started"
       {[ "farmId" := farmId; "zone" := VStr "zone-a";
          "reason" := VStr "low_soil_moisture";
          "moistureLevel" := VNum moistureLevel;
          "duration" := VStr "30 minutes" ]} = true).
Proof. repeat split; reflexivity. Qed.

(** *** [send-sms] *)


End Facts.

(* ===================================================================== *)
(** ** Jobs added by a computation *)
(* ===================================================================== *)

Lemma grows_refl P qs : grows P qs qs.
Proof. intros q. exists []. split; [now rewrite app_nil_r | constructor]. Qed.

Lemma grows_trans P qs1 qs2 qs3 :
  grows P qs1 qs2 -> grows P qs2 qs3 -> grows P qs1 qs3.
Proof.
  intros H12 H23 q. destruct (H12 q) as (js1 & E1 & F1), (H23 q) as (js2 & E2 & F2).
  exists (js1 ++ js2)%list. split.
  - rewrite E2, E1, <- app_assoc. reflexivity.
  - apply Forall_app; split; assumption.
Qed.

Lemma grows_weaken (P P' : Queue -> Job.t -> Prop) qs qs' :
  (forall q j, P q j -> P' q j) -> grows P qs qs' -> grows P' qs qs'.
Proof.
  intros HP H q. destruct (H q) as (js & E & F). exists js. split; [exact E |].
  eapply Forall_impl; [exact F | apply HP].
Qed.

Lemma grows_enqueue (P : Queue -> Job.t -> Prop) q j qs :
  P q j -> grows P qs (enqueue q j qs).
Proof.
  intros HP q'.
  destruct q, q'; cbn [jobs enqueue iot_sensors irrigation market_data maintenance
                       notifications];
    first [ exists [j]; split; [reflexivity | constructor; [exact HP | constructor]]
          | exists []; split; [now rewrite app_nil_r | constructor] ].
Qed.

Lemma emits_ret {A} P (a : A) : emits P (ret a).
Proof. intros w. apply grows_refl. Qed.

Lemma emits_throw {A} P (e : error) : emits P (@throw A e).
Proof. intros w. apply grows_refl. Qed.

Lemma emits_lift {A} P (o : outcome A) : emits P (lift o).
Proof. intros w. apply grows_refl. Qed.

(** A computation that reads the world and leaves it as it is. *)
Lemma emits_read {A} P (f : World -> outcome A) : emits P (fun w => (w, f w)).
Proof. intros w. apply grows_refl. Qed.

Lemma emits_bind {A B} P (c : M A) (k : A -> M B) :
  emits P c -> (forall a, emits P (k a)) -> emits P (bind c k).
Proof.
  intros Hc Hk w. unfold bind. specialize (Hc w).
  destruct (c w) as [w1 [a | e]]; cbn [fst] in *.
  - eapply grows_trans; [exact Hc | apply Hk].
  - exact Hc.
Qed.

Lemma emits_try_catch {A} P (c : M A) (h : error -> M A) :
  emits P c -> (forall e, emits P (h e)) -> emits P (try_catch c h).
Proof.
  intros Hc Hh w. unfold try_catch. specialize (Hc w).
  destruct (c w) as [w1 [a | e]]; cbn [fst] in *.
  - exact Hc.
  - eapply grows_trans; [exact Hc | apply Hh].
Qed.

Lemma emits_for_of {A B} P (xs : list B) (body : B -> A -> M A) (s : A) :
  (forall x s, emits P (body x s)) -> emits P (for_of xs body s).
Proof.
  intros Hbody. revert s. induction xs as [| x xs IH]; intros s; cbn [for_of].
  - apply emits_ret.
  - apply emits_bind; [apply Hbody | intros s'; apply IH].
Qed.

Lemma emits_weaken {A} (P P' : Queue -> Job.t -> Prop) (c : M A) :
  (forall q j, P q j -> P' q j) -> emits P c -> emits P' c.
Proof. intros HP H w. eapply grows_weaken; [exact HP | apply H]. Qed.

Lemma emits_Math_random P : emits P Math_random.
Proof. intros w. apply grows_refl. Qed.

Lemma emits_new_Date P : emits P new_Date.
Proof. intros w. apply grows_refl. Qed.

Lemma emits_process_env P k : emits P (process_env k).
Proof. intros w. apply grows_refl. Qed.

Lemma emits_smsService_send P options : emits P (smsService_send options).
Proof. intros w. apply grows_refl. Qed.

Lemma emits_Queue_add (P : Queue -> Job.t -> Prop) q name data :
  P q {| Job.name := name; Job.data := data |} -> emits P (Queue_add q name data).
Proof. intros HP w. apply grows_enqueue, HP. Qed.

(** [emit tac] takes a computation apart along its binds, branches and
    loops; [tac] settles what is left: the jobs added, the calls of
    [sendTaskNotification]. *)
Ltac emit_step tac :=
  first
    [ progress cbv zeta
    | lazymatch goal with
      | |- emits _ (ret _) => apply emits_ret
      | |- emits _ (throw _) => apply emits_throw
      | |- emits _ (lift _) => apply emits_lift
      | |- emits _ Math_random => apply emits_Math_random
      | |- emits _ new_Date => apply emits_new_Date
      | |- emits _ (process_env _) => apply emits_process_env
      | |- emits _ (smsService_send _) => apply emits_smsService_send
      | |- emits _ (fun w => (w, @?f w)) => apply emits_read
      | |- emits _ (Queue_add _ _ _) => apply emits_Queue_add; tac
      | |- emits _ (bind _ _) => apply emits_bind; [| intros ?]
      | |- emits _ (try_catch _ _) => apply emits_try_catch; [| intros ?]
      | |- emits _ (for_of _ _ _) => apply emits_for_of; intros ? ?
      | |- emits _ (if ?b then _ else _) => destruct b
      | |- emits _ (match ?st with (_, _) => _ end) => destruct st
      | |- emits _ _ => tac
      end ].

Ltac emit tac := repeat (emit_step tac).

(* ===================================================================== *)
(** ** Computations that return, and computations that add nothing *)
(* ===================================================================== *)

Lemma safe_ret {A} (a : A) : safe (ret a).
Proof. intros w. now exists a. Qed.

Lemma safe_lift {A} (a : A) : safe (lift (Ok a)).
Proof. intros w. now exists a. Qed.

Lemma safe_bind {A B} (c : M A) (k : A -> M B) :
  safe c -> (forall a, safe (k a)) -> safe (bind c k).
Proof.
  intros Hc Hk w. unfold bind. destruct (Hc w) as [a Ha].
  destruct (c w) as [w1 o]. cbn [snd] in Ha. subst o. apply Hk.
Qed.

Lemma safe_try_catch {A} (c : M A) (h : error -> M A) :
  (forall e, safe (h e)) -> safe (try_catch c h).
Proof.
  intros Hh w. unfold try_catch. destruct (c w) as [w1 [a | e]].
  - now exists a.
  - apply Hh.
Qed.

Lemma safe_for_of {A B} (xs : list B) (body : B -> A -> M A) (s : A) :
  (forall x s, In x xs -> safe (body x s)) -> safe (for_of xs body s).
Proof.
  revert s. induction xs as [| x xs IH]; intros s Hbody; cbn [for_of].
  - apply safe_ret.
  - apply safe_bind.
    + apply Hbody. now left.
    + intros s'. apply IH. intros y s'' Hy. apply Hbody. now right.
Qed.

Lemma safe_Math_random : safe Math_random.
Proof. intros w. eexists. reflexivity. Qed.

Lemma safe_new_Date : safe new_Date.
Proof. intros w. eexists. reflexivity. Qed.

Lemma safe_process_env k : safe (process_env k).
Proof. intros w. eexists. reflexivity. Qed.

Lemma safe_Queue_add q name data : safe (Queue_add q name data).
Proof. intros w. eexists. reflexivity. Qed.

Lemma silent_ret {A} (a : A) : silent (ret a).
Proof. intros w. reflexivity. Qed.

Lemma silent_throw {A} (e : error) : silent (@throw A e).
Proof. intros w. reflexivity. Qed.

Lemma silent_lift {A} (o : outcome A) : silent (lift o).
Proof. intros w. reflexivity. Qed.

Lemma silent_bind {A B} (c : M A) (k : A -> M B) :
  silent c -> (forall a, silent (k a)) -> silent (bind c k).
Proof.
  intros Hc Hk w. unfold bind. specialize (Hc w).
  destruct (c w) as [w1 [a | e]]; cbn [fst] in *.
  - rewrite Hk. exact Hc.
  - exact Hc.
Qed.

Lemma silent_for_of {A B} (xs : list B) (body : B -> A -> M A) (s : A) :
  (forall x s, silent (body x s)) -> silent (for_of xs body s).
Proof.
  intros Hbody. revert s. induction xs as [| x xs IH]; intros s; cbn [for_of].
  - apply silent_ret.
  - apply silent_bind; [apply Hbody | intros s'; apply IH].
Qed.

Lemma silent_Math_random : silent Math_random.
Proof. intros w. reflexivity. Qed.

Lemma silent_new_Date : silent new_Date.
Proof. intros w. reflexivity. Qed.

Lemma silent_process_env k : silent (process_env k).
Proof. intros w. reflexivity. Qed.

Lemma atomic_safe {A} (c : M A) : safe c -> atomic c.
Proof. intros Hc w e He. destruct (Hc w) as [a Ha]. congruence. Qed.

Lemma atomic_silent {A} (c : M A) : silent c -> atomic c.
Proof. intros Hc w e _. apply Hc. Qed.

(** A throw after a part that adds nothing leaves nothing added. *)
Lemma atomic_bind {A B} (c : M A) (k : A -> M B) :
  silent c -> (forall a, atomic (k a)) -> atomic (bind c k).
Proof.
  intros Hc Hk w e. unfold bind. specialize (Hc w).
  destruct (c w) as [w1 [a | e1]]; cbn [fst snd] in *.
  - intros He. rewrite (Hk a w1 e He). exact Hc.
  - intros _. exact Hc.
Qed.

Lemma atomic_lift_throw {A B} (e : error) (k : A -> M B) :
  atomic (bind (lift (Throw e)) k).
Proof. intros w e' _. reflexivity. Qed.

Ltac safe_step tac :=
  first
    [ progress cbv zeta
    | lazymatch goal with
      | |- safe (ret _) => apply safe_ret
      | |- safe (lift (Ok _)) => apply safe_lift
      | |- safe Math_random => apply safe_Math_random
      | |- safe new_Date => apply safe_new_Date
      | |- safe (process_env _) => apply safe_process_env
      | |- safe (Queue_add _ _ _) => apply safe_Queue_add
      | |- safe (bind (lift (Ok ?a)) ?k) => change (safe (k a)); cbv beta
      | |- safe (bind _ _) => apply safe_bind; [| intros ?]
      | |- safe (try_catch _ _) => apply safe_try_catch; intros ?
      | |- safe (if ?b then _ else _) => destruct b
      | |- safe (match ?st with (_, _) => _ end) => destruct st
      | |- safe _ => tac
      end ].

Ltac safely tac := repeat (safe_step tac).

Ltac silent_step tac :=
  first
    [ progress cbv zeta
    | lazymatch goal with
      | |- silent (ret _) => apply silent_ret
      | |- silent (throw _) => apply silent_throw
      | |- silent (lift _) => apply silent_lift
      | |- silent Math_random => apply silent_Math_random
      | |- silent new_Date => apply silent_new_Date
      | |- silent (process_env _) => apply silent_process_env
      | |- silent (bind _ _) => apply silent_bind; [| intros ?]
      | |- silent (for_of _ _ _) => apply silent_for_of; intros ? ?
      | |- silent (if ?b then _ else _) => destruct b
      | |- silent (match ?st with (_, _) => _ end) => destruct st
      | |- silent _ => tac
      end ].

Ltac silently tac := repeat (silent_step tac).

Lemma truthy_js_or_r a b : truthy b = true -> truthy (js_or a b) = true.
Proof. intros Hb. unfold js_or. destruct (truthy a) eqn:Ha; assumption. Qed.

Lemma js_or_truthy a b : truthy a = true -> js_or a b = a.
Proof. intros Ha. unfold js_or. now rewrite Ha. Qed.

Lemma js_or_falsy a b : truthy a = false -> js_or a b = b.
Proof. intros Ha. unfold js_or. now rewrite Ha. Qed.

(* ===================================================================== *)
(** ** The processors as a whole *)
(* ===================================================================== *)

Section Behaviour.

Context (rt : Runtime).

(** *** Which processors return *)

Lemma safe_sendTaskNotification taskType details :
  well_formed_event taskType details = true ->
  safe (sendTaskNotification rt taskType details).
Proof.
  intros Hwf w.
  destruct (sendTaskNotification_run rt taskType details w Hwf) as (m & _ & ->).
  now exists tt.
Qed.

Lemma safe_alerts taskType (alerts : list obj) :
  (forall details, well_formed_event taskType details = true) ->
  safe (for_of alerts (fun alert (_ : unit) => sendTaskNotification rt taskType alert) tt).
Proof.
  intros Hwf. apply safe_for_of. intros alert [] _.
  apply safe_sendTaskNotification, Hwf.
Qed.

Lemma safe_assess_zone farmId zone count : safe (assess_zone rt farmId zone count).
Proof. unfold assess_zone. safely fail. Qed.

Lemma safe_check_item farmId item st : safe (check_item rt farmId (VStr item) st).
Proof. unfold check_item. destruct st as [[? ?] ?]. cbn [method_replace]. safely fail. Qed.

Lemma safe_check_crop markets crop st :
  safe (check_crop rt (VArr markets) (VStr crop) st).
Proof.
  unfold check_crop. destruct st as [? ?]. cbn [method_toUpperCase prop_0]. safely fail.
Qed.

Ltac notify :=
  idtac;
  lazymatch goal with
  | |- safe (sendTaskNotification _ _ _) => apply safe_sendTaskNotification; reflexivity
  | |- safe (for_of _ (fun alert _ => sendTaskNotification _ _ alert) _) =>
      apply safe_alerts; intros ?; reflexivity
  | |- safe (for_of _ (assess_zone _ _) _) =>
      apply safe_for_of; intros ? ? _; apply safe_assess_zone
  | |- safe (for_of (map VStr _) (check_item _ _) _) =>
      apply safe_for_of; intros ? ? [? [<- _]]%in_map_iff; apply safe_check_item
  | |- safe (for_of (map VStr _) (check_crop _ _) _) =>
      apply safe_for_of; intros ? ? [? [<- _]]%in_map_iff; apply safe_check_crop
  end.

Lemma safe_collect_soil_moisture job : safe (collect_soil_moisture rt job).
Proof. unfold collect_soil_moisture. safely notify. Qed.

Lemma safe_collect_weather_data job : safe (collect_weather_data rt job).
Proof. unfold collect_weather_data. safely notify. Qed.

Lemma safe_collect_crop_health job : safe (collect_crop_health rt job).
Proof. unfold collect_crop_health. safely notify. Qed.

Lemma safe_start_irrigation job : safe (start_irrigation rt job).
Proof. unfold start_irrigation. safely notify. Qed.

Lemma safe_send_sms job : safe (send_sms job).
Proof. unfold send_sms. safely fail. Qed.

Ltac safe_processor :=
  idtac;
  lazymatch goal with
  | |- safe (collect_soil_moisture _ _) => apply safe_collect_soil_moisture
  | |- safe (collect_weather_data _ _) => apply safe_collect_weather_data
  | |- safe (collect_crop_health _ _) => apply safe_collect_crop_health
  | |- safe (start_irrigation _ _) => apply safe_start_irrigation
  | |- safe (send_sms _) => apply safe_send_sms
  end.





(** *** Which jobs the processors add *)

Lemma emits_switch_taskType P taskType details :
  emits P (switch_taskType rt taskType details).
Proof. unfold switch_taskType. case_kind; emit fail. Qed.

Lemma emits_sendTaskNotification (P : Queue -> Job.t -> Prop) taskType details :
  (forall data, P notificationQueue {| Job.name := "send-sms"; Job.data := data |}) ->
  emits P (sendTaskNotification rt taskType details).
Proof.
  intros HP. unfold sendTaskNotification, formatMessage.
  emit ltac:(idtac; lazymatch goal with
             | |- emits _ (switch_taskType _ _ _) => apply emits_switch_taskType
             | |- _ => apply HP
             end).
Qed.

Ltac follow :=
  idtac;
  lazymatch goal with
  | |- emits _ (sendTaskNotification _ _ _) =>
      apply emits_sendTaskNotification; intros ?; reflexivity
  | |- follow_up _ notificationQueue _ => reflexivity
  | |- follow_up _ irrigationQueue _ => split; reflexivity
  end.

Lemma emits_collect_soil_moisture job :
  emits (follow_up true) (collect_soil_moisture rt job).
Proof. unfold collect_soil_moisture. emit follow. Qed.

Lemma emits_collect_weather_data job :
  emits (follow_up false) (collect_weather_data rt job).
Proof. unfold collect_weather_data. emit follow. Qed.

Lemma emits_collect_crop_health job :
  emits (follow_up false) (collect_crop_health rt job).
Proof. unfold collect_crop_health. emit follow. Qed.

Lemma emits_start_irrigation job :
  emits (follow_up false) (start_irrigation rt job).
Proof. unfold start_irrigation. emit follow. Qed.

Lemma emits_assess_irrigation_needs job :
  emits (follow_up true) (assess_irrigation_needs rt job).
Proof. unfold assess_irrigation_needs, assess_zone. emit follow. Qed.

Lemma emits_fetch_market_prices job :
  emits (follow_up false) (fetch_market_prices rt job).
Proof. unfold fetch_market_prices, check_crop. emit follow. Qed.

Lemma emits_check_equipment_status job :
  emits (follow_up false) (check_equipment_status rt job).
Proof. unfold check_equipment_status, check_item. emit follow. Qed.

Lemma emits_send_sms job : emits (fun _ _ => False) (send_sms job).
Proof. unfold send_sms. emit fail. Qed.

Ltac emits_processor :=
  idtac;
  lazymatch goal with
  | |- emits _ (collect_soil_moisture _ _) => apply emits_collect_soil_moisture
  | |- emits _ (collect_weather_data _ _) => apply emits_collect_weather_data
  | |- emits _ (collect_crop_health _ _) => apply emits_collect_crop_health
  | |- emits _ (start_irrigation _ _) => apply emits_start_irrigation
  | |- emits _ (assess_irrigation_needs _ _) => apply emits_assess_irrigation_needs
  | |- emits _ (fetch_market_prices _ _) => apply emits_fetch_market_prices
  | |- emits _ (check_equipment_status _ _) => apply emits_check_equipment_status
  | |- emits (follow_up false) (send_sms _) =>
      eapply emits_weaken; [| apply emits_send_sms]; intros ? ? []
  | |- emits _ (send_sms _) => apply emits_send_sms
  | |- emits _ (missing_handler _) => apply emits_throw
  end.





(** *** A failed job has added nothing *)

Lemma silent_check_item farmId item st : silent (check_item rt farmId item st).
Proof. unfold check_item. destruct st as [[? ?] ?]. silently fail. Qed.

Lemma silent_check_crop markets crop st : silent (check_crop rt markets crop st).
Proof. unfold check_crop. destruct st as [? ?]. silently fail. Qed.

Ltac quiet_loop :=
  idtac;
  lazymatch goal with
  | |- silent (check_item _ _ _ _) => apply silent_check_item
  | |- silent (check_crop _ _ _ _) => apply silent_check_crop
  end.

Ltac atomically :=
  repeat first
    [ progress cbv zeta
    | apply atomic_safe; solve [ safely notify ]
    | lazymatch goal with
      | |- atomic (bind _ _) =>
          apply atomic_bind; [ solve [ silently quiet_loop ] | intros ? ]
      | |- atomic (match ?st with (_, _) => _ end) => destruct st
      end ].

Lemma atomic_assess_irrigation_needs job : atomic (assess_irrigation_needs rt job).
Proof.
  unfold assess_irrigation_needs.
  destruct (get (Job.data job) "zones"); cbn [iterate prop_length];
    lazymatch goal with
    | |- atomic (bind (lift (Throw _)) _) => apply atomic_lift_throw
    | |- _ => apply atomic_safe; safely notify
    end.
Qed.

Lemma atomic_check_equipment_status job : atomic (check_equipment_status rt job).
Proof.
  unfold check_equipment_status.
  destruct (get (Job.data job) "equipment"); cbn [iterate prop_length];
    lazymatch goal with
    | |- atomic (bind (lift (Throw _)) _) => apply atomic_lift_throw
    | |- _ => atomically
    end.
Qed.

(** With [markets] missing, the crop loop throws as soon as a crop calls
    for an alert: it ends with no alert, or with a [TypeError]. *)
Lemma for_of_check_crop_nullish markets crops prices w :
  nullish markets = true ->
  match for_of crops (check_crop rt markets) (prices, []) w with
  | (w', Ok (_, priceAlerts)) => queues w' = queues w /\ priceAlerts = []
  | (w', Throw e) => queues w' = queues w /\ exists msg, e = TypeError msg
  end.
Proof.
  intros Hm. revert prices w. induction crops as [| crop crops IH]; intros prices w.
  - split; reflexivity.
  - cbn [for_of]. unfold check_crop at 1. run.
    assert (Hup : (exists s, method_toUpperCase rt "crop" crop = Ok s) \/
                  (exists msg, method_toUpperCase rt "crop" crop = Throw (TypeError msg))).
    { destruct crop; cbn; eauto. }
    assert (H0 : exists msg, prop_0 markets = Throw (TypeError msg)).
    { destruct markets; try discriminate Hm; cbn; eauto. }
    destruct H0 as [msg0 H0].
    destruct Hup as [[s ->] | [msg ->]]; [| split; [reflexivity | eauto]].
    repeat match goal with
           | |- context [if ?b then _ else _] => destruct b
           end; rewrite ?H0; run; try (split; [reflexivity | eauto]; fail).
    match goal with
    | |- context [for_of crops _ (?p, []) ?w1] =>
        specialize (IH p w1);
        destruct (for_of crops (check_crop rt markets) (p, []) w1) as [w' [[? ?] | ?]];
        exact IH
    end.
Qed.

Lemma fetch_market_prices_nullish_markets job w :
  nullish (get (Job.data job) "markets") = true ->
  exists w' msg,
    fetch_market_prices rt job w = (w', Throw (TypeError msg)) /\
    queues w' = queues w.
Proof.
  intros Hm. unfold fetch_market_prices.
  assert (Hit : (exists l, iterate "crops" (get (Job.data job) "crops") = Ok l /\
                           exists n, prop_length (get (Job.data job) "crops") = Ok n) \/
                (exists msg, iterate "crops" (get (Job.data job) "crops")
                             = Throw (TypeError msg))).
  { destruct (get (Job.data job) "crops"); cbn; eauto. }
  destruct Hit as [(l & -> & n & Hn) | [msg ->]]; [| run; eauto].
  run.
  pose proof (for_of_check_crop_nullish _ l ∅ w Hm) as Hloop.
  destruct (for_of l (check_crop rt (get (Job.data job) "markets")) (∅, []) w)
    as [w1 [[prices priceAlerts] | e]]; destruct Hloop as [Hq Hr].
  - subst priceAlerts. cbn [for_of]. run. rewrite Hn.
    destruct (get (Job.data job) "markets"); try discriminate Hm; cbn [prop_length]; eauto.
  - destruct Hr as [msg ->]. eauto.
Qed.

Lemma atomic_fetch_market_prices job : atomic (fetch_market_prices rt job).
Proof.
  destruct (nullish (get (Job.data job) "markets")) eqn:Hm.
  - intros w e _.
    destruct (fetch_market_prices_nullish_markets job w Hm) as (w' & msg & -> & Hq).
    exact Hq.
  - unfold fetch_market_prices.
    destruct (get (Job.data job) "markets"); try discriminate Hm;
      destruct (get (Job.data job) "crops"); cbn [iterate prop_length];
      lazymatch goal with
    | |- atomic (bind (lift (Throw _)) _) => apply atomic_lift_throw
    | |- _ => atomically
    end.
Qed.

(** X5. A job whose handler throws has added no job: whatever job of
    whatever queue is processed, in whatever world, if the processing ends
    in an error then every queue is as it was before.  (The handlers do
    everything that can throw before they send their first notification;
    so a failed job that is run again sends nothing twice.) *)
Theorem process_failure_adds_no_job q job w e :
  snd (process rt q job w) = Throw e ->
  queues (fst (process rt q job w)) = queues w.
Proof.
  revert w e. change (atomic (process rt q job)). unfold process.
  destruct q;
    repeat match goal with
           | |- context [String.eqb ?a ?b] => destruct (String.eqb a b)
           end;
    lazymatch goal with
    | |- atomic (missing_handler _) => apply atomic_silent, silent_throw
    | |- atomic (assess_irrigation_needs _ _) => apply atomic_assess_irrigation_needs
    | |- atomic (fetch_market_prices _ _) => apply atomic_fetch_market_prices
    | |- atomic (check_equipment_status _ _) => apply atomic_check_equipment_status
    | |- _ => apply atomic_safe; safe_processor
    end.
Qed.

(** X6. A [fetch-market-prices] job whose [markets] is missing (or
    [null]) always fails, whatever its crops, the draws and the
    thresholds: the handler throws a [TypeError] (at [markets[0]] for the
    first crop that calls for an alert, else at [markets.length] after the
    loop) and no notification is sent, the summary included. *)
Theorem fetch_market_prices_without_markets job w :
  nullish (get (Job.data job) "markets") = true ->
  exists w' msg,
    fetch_market_prices rt job w = (w', Throw (TypeError msg)) /\
    queues w' = queues w.
Proof. apply fetch_market_prices_nullish_markets. Qed.

(** *** The readings the follow-up jobs carry *)

Lemma collect_soil_moisture_irrigation job w :
  irrigation (queues (fst (collect_soil_moisture rt job w))) =
    (irrigation (queues w) ++
     [ {| Job.name := "start-irrigation";
          Job.data :=
            {[ "farmId" := get (Job.data job) "farmId"; "zone" := VStr "zone-a";
               "reason" := VStr "low_soil_moisture";
               "moistureLevel" := VNum (reading (random w) (random_ix w));
               "timestamp" := VStr (toISOString (clock w (2 + clock_ix w))) ]} |} ])%list.
Proof.
  unfold collect_soil_moisture. run.
  match goal with
  | |- context [sendTaskNotification rt ?t ?d ?w0] =>
      destruct (sendTaskNotification_run rt t d w0 eq_refl) as (m1 & _ & ->)
  end.
  run. rewrite condition_always_truthy by reflexivity. run.
  match goal with
  | |- context [sendTaskNotification rt ?t ?d ?w0] =>
      destruct (sendTaskNotification_run rt t d w0 eq_refl) as (m2 & _ & ->)
  end.
  reflexivity.
Qed.

Lemma assess_irrigation_needs_irrigation job w :
  match iterate "zones" (get (Job.data job) "zones") with
  | Ok zones =>
      irrigation (queues (fst (assess_irrigation_needs rt job w))) =
        (irrigation (queues w)
         ++ zone_followups (get (Job.data job) "farmId") (soil_moisture_low rt (env w) 35)
              (random w) (random_ix w) zones)%list
  | Throw _ => queues (fst (assess_irrigation_needs rt job w)) = queues w
  end.
Proof.
  unfold assess_irrigation_needs.
  destruct (get (Job.data job) "zones"); cbn [iterate prop_length]; run; try reflexivity;
    rewrite for_of_assess_zone; run;
    match goal with
    | |- context [sendTaskNotification rt ?t ?d ?w0] =>
        destruct (sendTaskNotification_run rt t d w0 eq_refl) as (m & _ & ->)
    end;
    simpl_world;
    match goal with
    | |- context [enqueue_all irrigationQueue ?js ?qs] =>
        exact (jobs_enqueue_all irrigationQueue js qs)
    end.
Qed.

Lemma zone_followups_readings farmId threshold (rnd : nat -> Q) ix zones :
  (forall i, (0 <= rnd i)%Q /\ (rnd i < 1)%Q /\ Num.double (rnd i)) ->
  Forall (fun j => Job.name j = "start-irrigation" /\
                   get (Job.data j) "farmId" = farmId /\
                   exists x, get (Job.data j) "moistureLevel" = VNum (Fin x) /\
                             (0 <= x)%Q /\ (x < 100)%Q)
    (zone_followups farmId threshold rnd ix zones).
Proof.
  intros Hrnd. revert ix. induction zones as [| zone zones IH]; intros ix;
    cbn [zone_followups]; [constructor |].
  apply Forall_app. split; [| apply IH].
  destruct (Num.lt (reading rnd ix) threshold); constructor; [| constructor].
  destruct (reading_bounds rnd ix (Hrnd ix)) as (x & Hx & Hb).
  repeat split; try reflexivity. exists x. rewrite <- Hx. split; [reflexivity | exact Hb].
Qed.

(** X7. With draws of [Math.random()] in [0, 1): whatever job of whatever
    queue is processed, every job it adds to the irrigation queue is a
    [start-irrigation] job for the farm of the job processed that carries
    a finite numeric [moistureLevel] in [0, 100).  So the
    [start-irrigation] jobs the server makes itself all meet the
    condition on [moistureLevel] under which the levels of the
    [start-irrigation] processor are characterised. *)
Theorem follow_up_readings q job w :
  random_ok w ->
  exists js,
    irrigation (queues (fst (process rt q job w))) = (irrigation (queues w) ++ js)%list /\
    Forall (fun j => Job.name j = "start-irrigation" /\
                     get (Job.data j) "farmId" = get (Job.data job) "farmId" /\
                     exists x, get (Job.data j) "moistureLevel" = VNum (Fin x) /\
                               (0 <= x)%Q /\ (x < 100)%Q) js.
Proof.
  intros Hrnd.
  assert (Hnone : forall (c : M obj),
             emits (follow_up false) c ->
             exists js,
               irrigation (queues (fst (c w))) = (irrigation (queues w) ++ js)%list /\
               Forall (fun j => Job.name j = "start-irrigation" /\
                                get (Job.data j) "farmId" = get (Job.data job) "farmId" /\
                                exists x, get (Job.data j) "moistureLevel" = VNum (Fin x) /\
                                          (0 <= x)%Q /\ (x < 100)%Q) js).
  { intros c Hc. destruct (Hc w irrigationQueue) as (js & E & F). exists js.
    split; [exact E |]. eapply Forall_impl; [exact F |]. intros j [[=] _]. }
  unfold process.
  destruct q;
    repeat match goal with
           | |- context [String.eqb ?a ?b] => destruct (String.eqb a b)
           end;
    lazymatch goal with
    | |- context [collect_soil_moisture] => idtac
    | |- context [assess_irrigation_needs] => idtac
    | |- _ => apply Hnone; emits_processor
    end.
  - rewrite collect_soil_moisture_irrigation. eexists. split; [reflexivity |].
    constructor; [| constructor].
    destruct (reading_bounds (random w) (random_ix w) (Hrnd _)) as (x & Hx & Hb).
    repeat split; try reflexivity. exists x. rewrite <- Hx. split; [reflexivity | exact Hb].
  - pose proof (assess_irrigation_needs_irrigation job w) as H.
    destruct (iterate "zones" (get (Job.data job) "zones")) as [zones | e].
    + rewrite H. eexists. split; [reflexivity |]. apply zone_followups_readings, Hrnd.
    + rewrite H. exists []. split; [now rewrite app_nil_r | constructor].
Qed.

(** *** [collect-weather-data] and [collect-crop-health] *)




(** X9. With draws of [Math.random()] in [0, 1), a resolved temperature
    threshold of 35 or more and a resolved humidity threshold of 40 or
    less (the defaults, among others): [collect-weather-data] never sends
    a warning, the queues are left as they were.  (The simulated
    temperature does not exceed 35 and the simulated humidity is at least
    40.) *)
Theorem collect_weather_data_quiet job w t h :
  random_ok w ->
  weather_threshold rt (env w) "TEMPERATURE_HIGH_THRESHOLD" 35 = Fin t ->
  (35 <= t)%Q ->
  weather_threshold rt (env w) "HUMIDITY_LOW_THRESHOLD" 40 = Fin h ->
  (h <= 40)%Q ->
  queues (fst (collect_weather_data rt job w)) = queues w.
Proof.
  intros Hrnd Ht Ht35 Hh Hh40. unfold collect_weather_data. run.
  fold (weather_threshold rt (env w) "TEMPERATURE_HIGH_THRESHOLD" 35).
  fold (weather_threshold rt (env w) "HUMIDITY_LOW_THRESHOLD" 40).
  rewrite Ht, Hh.
  pose proof (Hrnd (random_ix w)) as (H0 & H1 & _).
  pose proof (Hrnd (S (random_ix w))) as (H0' & H1' & _).
  unfold Num.gt, Num.of_Z.
  destruct (mul_between (random w (random_ix w)) (inject_Z 15) 0 15 0 15)
    as (x & -> & Hx0 & Hx1);
    [rounds | rounds | unfold inject_Z; lra | unfold inject_Z; lra |].
  destruct (add_between x (inject_Z 20) 20 35 20 35) as (temperature & -> & Ht0 & Ht1);
    [rounds | rounds | unfold inject_Z; lra | unfold inject_Z; lra |].
  destruct (mul_between (random w (S (random_ix w))) (inject_Z 40) 0 40 0 40)
    as (y & -> & Hy0 & Hy1);
    [rounds | rounds | unfold inject_Z; lra | unfold inject_Z; lra |].
  destruct (add_between y (inject_Z 40) 40 80 40 80) as (humidity & -> & Hh0 & Hh1);
    [rounds | rounds | unfold inject_Z; lra | unfold inject_Z; lra |].
  assert (Htemp : Num.lt (Fin t) (Fin temperature) = false) by (apply lt_Fin_false; lra).
  assert (Hhum : Num.lt (Fin humidity) (Fin h) = false) by (apply lt_Fin_false; lra).
  rewrite Htemp, Hhum. reflexivity.
Qed.


(* ===================================================================== *)
(** ** The endpoints and the scheduler setup *)
(* ===================================================================== *)



(** X12. [POST /webhooks/test-sms], for every request body and world.
    A body that is [undefined] or [null] is answered with status 500 and
    the message of the [TypeError], and nothing is queued.  Any other body
    is answered with status 200 and exactly one [send-sms] job is added,
    stamped with the current time; its [phoneNumber], [message] and [type]
    are never falsy: each is the field of the body when that is truthy,
    and otherwise [FARMER_PHONE] or [+254717135176], the fixed test text,
    and [test]. *)
Theorem webhook_test_sms_job req_body w :
  if nullish req_body then
    exists msg,
      webhook_test_sms req_body w =
        (w, Ok {| statusCode := 500; body := {[ "error" := VStr msg ]} |})
  else
    exists job,
      webhook_test_sms req_body w =
        (with_queues (enqueue notificationQueue job (queues w))
           (with_clock_ix (S (clock_ix w)) w),
         Ok {| statusCode := 200;
               body := {[ "status" := VStr "success";
                          "message" := VStr "Test SMS queued" ]} |}) /\
      Job.name job = "send-sms" /\
      (forall k, k = "phoneNumber" \/ k = "message" \/ k = "type" ->
                 truthy (get (Job.data job) k) = true /\
                 (truthy (field req_body k) = true ->
                  get (Job.data job) k = field req_body k)) /\
      (truthy (field req_body "phoneNumber") = false ->
       get (Job.data job) "phoneNumber" =
         js_or (env_value (env w !! "FARMER_PHONE")) (VStr "+254717135176")) /\
      (truthy (field req_body "message") = false ->
       get (Job.data job) "message" =
         VStr "🧪 Test SMS from Locci Farm IoT system - all systems operational!") /\
      (truthy (field req_body "type") = false ->
       get (Job.data job) "type" = VStr "test") /\
      get (Job.data job) "timestamp" = VStr (toISOString (clock w (clock_ix w))).
Proof.
  unfold webhook_test_sms, internal_error.
  destruct req_body; cbn [nullish destructure]; run; try (eexists; reflexivity);
    (eexists; split; [reflexivity |]; cbn [Job.name Job.data]; split; [reflexivity |]);
    match goal with
    | |- context [<[ "phoneNumber" := ?p ]> (<[ "message" := ?m ]> (<[ "type" := ?t ]> ?rest))] =>
        set (data := <[ "phoneNumber" := p ]> (<[ "message" := m ]> (<[ "type" := t ]> rest)));
        assert (Hp : get data "phoneNumber" = p) by reflexivity;
        assert (Hm : get data "message" = m) by reflexivity;
        assert (Ht : get data "type" = t) by reflexivity;
        assert (Hts : get data "timestamp" = VStr (toISOString (clock w (clock_ix w))))
          by reflexivity;
        clearbody data
    end;
    rewrite Hts; cbn [field]; (split; [| repeat split]);
    try (intros Hk; rewrite ?Hp, ?Hm, ?Ht, ?(js_or_falsy _ _ Hk); reflexivity);
    (intros k [-> | [-> | ->]]; rewrite ?Hp, ?Hm, ?Ht;
     (split; [repeat apply truthy_js_or_r; reflexivity |]);
     intros Hk; rewrite ?(js_or_truthy _ _ Hk); try reflexivity;
     apply js_or_truthy; rewrite (js_or_truthy _ _ Hk); exact Hk).
Qed.

Lemma sendTaskNotification_system_status details w :
  sendTaskNotification rt "system_status" details w =
    (with_queues
       (enqueue notificationQueue
          (sms (env w) "system_status" details
             (("📊 SYSTEM UPDATE: " +:+ toString rt (get details "message") +:+ ". "
               +:+ "All systems "
               +:+ (if truthy (get details "systemsHealthy")
                    then "operating normally" else "require attention")
               +:+ ".")
              +:+ " [Farm: "
              +:+ toString rt (js_or (get details "farmId") (VStr "farm-001")) +:+ "]")
             (toISOString (clock w (clock_ix w))))
          (queues w))
       (with_clock_ix (S (clock_ix w)) w),
     Ok tt).
Proof.
  unfold sendTaskNotification. run. rewrite formatMessage_run.
  unfold switch_taskType. case_kind. run. reflexivity.
Qed.

(** X13. [GET /api/status] when the five [getJobCounts] calls resolve:
    the request is answered with status 200 and [healthy], and it has a
    side effect: exactly one SMS job is added, of kind [system_status],
    whose text is fixed and names the farm [farm-001] whatever [FARM_ID]
    is (the [environment] of the answer does show [FARM_ID]).  The counts
    in the answer are those taken before that SMS job was added; no other
    queue is touched. *)
Theorem api_status_notifies getJobCounts (counts : Queue -> value) w :
  (forall q, getJobCounts q (queues w) = Ok (counts q)) ->
  exists w' response,
    api_status rt getJobCounts w = (w', Ok response) /\
    statusCode response = 200 /\
    get (body response) "status" = VStr "healthy" /\
    get (body response) "queues" =
      VObj {[ "iotSensors" := counts iotSensorQueue;
              "irrigation" := counts irrigationQueue;
              "marketData" := counts marketDataQueue;
              "maintenance" := counts maintenanceQueue;
              "notifications" := counts notificationQueue ]} /\
    get (body response) "environment" =
      VObj {[ "farmId" := js_or (env_value (env w !! "FARM_ID")) (VStr "farm-001");
              "webhookBase" := env_value (env w !! "WEBHOOK_BASE_URL");
              "redisHost" := env_value (env w !! "REDIS_HOST") ]} /\
    events (queues w') =
      (events (queues w)
       ++ [event "system_status"
             {[ "message" := VStr "System status check requested";
                "systemsHealthy" := VBool true;
                "queues" := VNum (Num.of_Z 5);
                "timestamp" := VStr (toISOString (clock w (clock_ix w))) ]}])%list /\
    messages (queues w') =
      (messages (queues w)
       ++ [VStr ("📊 SYSTEM UPDATE: System status check requested. "
                 +:+ "All systems operating normally. [Farm: farm-001]")])%list /\
    iot_sensors (queues w') = iot_sensors (queues w) /\
    irrigation (queues w') = irrigation (queues w) /\
    market_data (queues w') = market_data (queues w) /\
    maintenance (queues w') = maintenance (queues w).
Proof.
  intros Hc. unfold api_status. run. rewrite !Hc.
  rewrite sendTaskNotification_system_status. run.
  do 2 eexists. split; [reflexivity |]. cbn [statusCode body].
  unfold events, messages. simpl_world. rewrite !map_app.
  repeat split; reflexivity.
Qed.

(** X14. [GET /api/status] when one of the [getJobCounts] calls rejects:
    the request is answered with status 500 and an error message, and the
    world is as it was: no SMS is queued and the clock is not read. *)
Theorem api_status_unavailable getJobCounts w q e :
  getJobCounts q (queues w) = Throw e ->
  exists msg,
    api_status rt getJobCounts w =
      (w, Ok {| statusCode := 500; body := {[ "error" := VStr msg ]} |}).
Proof.
  intros Hq. unfold api_status, internal_error. run.
  destruct (getJobCounts iotSensorQueue (queues w)) eqn:E1; [| eauto].
  destruct (getJobCounts irrigationQueue (queues w)) eqn:E2; [| eauto].
  destruct (getJobCounts marketDataQueue (queues w)) eqn:E3; [| eauto].
  destruct (getJobCounts maintenanceQueue (queues w)) eqn:E4; [| eauto].
  destruct (getJobCounts notificationQueue (queues w)) eqn:E5; [| eauto].
  destruct q; congruence.
Qed.

(** X15. [setupScheduledTasks] registers the four interval tasks in
    order and stops at the first one the scheduler refuses: the tasks
    scheduled afterwards are those scheduled before followed by the
    accepted prefix of the four, and the function returns in every case
    (the error is only logged), so that one refusal silently leaves the
    later tasks unscheduled. *)
Theorem setupScheduledTasks_accepted e s :
  let s' := setupScheduledTasks rt e s in
  scheduled s' =
    (scheduled s ++ accepted (refuses s) (interval_tasks rt (e !! "WEBHOOK_BASE_URL")))%list /\
  refuses s' = refuses s.
Proof.
  cbv zeta. unfold setupScheduledTasks, and_then, scheduleInterval, interval_tasks.
  cbn [accepted].
  repeat (match goal with
          | |- context [refuses s ?t] => destruct (refuses s t)
          end; cbn [fst snd scheduled refuses]);
    rewrite <- ?app_assoc, ?app_nil_r; split; reflexivity.
Qed.

End Behaviour.

(* ===================================================================== *)
(** ** The processors on concrete inputs *)
(* ===================================================================== *)

Import Reference.

(** [Num.mul] and [Num.add] give what the binary64 arithmetic of the
    kernel gives, at each of the [samples]. *)
Example arithmetic_agrees_with_binary64 :
  Forall (fun '(x, y) =>
            Num.mul (of_float x) (of_float y) = of_float (x * y)%float /\
            Num.add (of_float x) (of_float y) = of_float (x + y)%float /\
            Num.sub (of_float x) (of_float y) = of_float (x - y)%float)
         samples.
Proof.
  repeat (apply List.Forall_cons; [repeat split; vm_compute; reflexivity |]).
  apply List.Forall_nil.
Qed.

(** A reading as the code computes it: the draw [0.07] gives
    [7.000000000000001], the draw just below [0.2] gives 20. *)
Example readings_are_rounded :
  reading (draws [dbl (7 # 100)]) 0 = Fin (7881299347898369 # 1125899906842624) /\
  toString (reading (draws [dbl (7 # 100)]) 0) = "7.000000000000001" /\
  toFixed (reading (draws [dbl (7 # 100)]) 0) 1 = "7.0" /\
  reading (draws [7205759403792793 # 36028797018963968]) 0 = Fin 20.
Proof. repeat split; vm_compute; reflexivity. Qed.

(** The reference runtime prints and reads doubles as node does. *)
Example reference_runtime_samples :
  map toString [Fin (1 # 2); Fin 100; Fin (dbl (1 # 10)); Fin (dbl (3 # 10));
                Num.mul (Fin (dbl (3 # 10))) (Fin 3); Fin (dbl (inject_Z (10 ^ 21)));
                Fin (dbl (123456789012345678901 # 1)); Fin (dbl (1 # 10000000));
                Fin (- (5 # 4)); Fin (Num.pow2 (-1074)); Fin (dbl (1 # 1000000))]
  = ["0.5"; "100"; "0.1"; "0.3"; "0.8999999999999999"; "1e+21";
     "123456789012345680000"; "1e-7"; "-1.25"; "5e-324"; "0.000001"] /\
  map parseFloat ["35"; "1e2"; " 27.5abc"; "0.7"; "-.5e1"; "1e"; "abc"; "Infinity"; "1e400"]
  = [Fin 35; Fin 100; Fin (55 # 2); Num.literal (7 # 10); Fin (- 5); Fin 1; NaN;
     PInf; PInf] /\
  map (fun n => toFixed n 1) [Fin (5 # 4); Fin (dbl (27 # 20)); Fin 10; Fin (- (1 # 4))]
  = ["1.3"; "1.4"; "10.0"; "-0.3"].
Proof. repeat split; vm_compute; reflexivity. Qed.

(** C1 (the code departs from the specification).  With no threshold
    configured and a reading of 50, which is not below the resolved
    threshold 30, the soil-moisture processor still adds a
    [start-irrigation] follow-up carrying the reading: its test is
    [moistureLevel < parseFloat(...) || 30], which JavaScript reads as
    [(moistureLevel < parseFloat(...)) || 30] and which is truthy for
    every reading. *)
Theorem soil_moisture_high_reading_still_irrigates :
  let w := world ∅ (draws [1 # 2]) six_am in
  reading (random w) 0 = Fin 50 /\
  soil_moisture_low node (env w) 30 = Fin 30 /\
  Num.lt (reading (random w) 0) (soil_moisture_low node (env w) 30) = false /\
  irrigation (queues (fst (collect_soil_moisture node soil_moisture_job w))) =
    [ {| Job.name := "start-irrigation";
         Job.data :=
           {[ "farmId" := VStr "farm-001"; "zone" := VStr "zone-a";
              "reason" := VStr "low_soil_moisture";
              "moistureLevel" := VNum (Fin 50);
              "timestamp" := VStr "2025-03-01T06:00:00.000Z" ]} |} ].
Proof. cbv zeta. repeat split; vm_compute; reflexivity. Qed.

(** C4 (the code departs from the specification).  The
    [collect-sensor-data] webhook followed by the processing of its first
    job, with the moisture reading fixed at 10 (the draw is [0.1], the
    double nearest to one tenth): a [start-irrigation] follow-up for
    [zone-a] is added and an [irrigation_started] notification is sent,
    but its message reads [low soil_moisture]: [replace("_", " ")]
    replaces the first underscore only, and the literal text
    [low soil moisture] does not occur in it. *)
Theorem moisture_10_message_keeps_an_underscore :
  let w0 := world ∅ (draws [dbl (1 # 10)]) six_am in
  let w1 := fst (webhook_collect_sensor_data w0) in
  let w2 := fst (process node iotSensorQueue soil_moisture_job w1) in
  let rendered :=
    "💧 IRRIGATION ALERT: Auto-irrigation started in zone-a. Reason: low soil_moisture. Duration: 30 minutes [Farm: farm-001]" in
  head (iot_sensors (queues w1)) = Some soil_moisture_job /\
  irrigation (queues w2) =
    [ {| Job.name := "start-irrigation";
         Job.data :=
           {[ "farmId" := VStr "farm-001"; "zone" := VStr "zone-a";
              "reason" := VStr "low_soil_moisture";
              "moistureLevel" := VNum (Fin 10);
              "timestamp" := VStr "2025-03-01T06:00:00.000Z" ]} |} ] /\
  map (fun j => (get (Job.data j) "type", get (Job.data j) "message"))
      (notifications (queues w2)) =
    [ (VStr "sensor_data_collected",
       VStr "🌱 FARM UPDATE: Sensor data collected at 6:00:00 AM. Soil: 10.0%, Weather: 27.5°C [Farm: farm-001]");
      (VStr "irrigation_started", VStr rendered) ] /\
  Str.includes rendered "low soil moisture" = false /\
  Str.includes rendered "low soil_moisture" = true.
Proof. cbv zeta. repeat split; vm_compute; reflexivity. Qed.

(** C2, counterexample.  The same [task_completed] event rendered twice
    in a row, the clock showing 6:00:00 AM at the first rendering and
    12:00:00 PM at the second, gives two different messages. *)
Lemma task_completed_rendered_twice_differs :
  let details : obj :=
    {[ "taskName" := VStr "Market Price Update";
       "status" := VStr "Checked 3 crops, 0 alerts" ]} in
  snd (render_twice "task_completed" details (world_at six_am noon)) =
  Ok (VStr "✅ TASK COMPLETE: Market Price Update finished successfully at 6:00:00 AM. Status: Checked 3 crops, 0 alerts [Farm: farm-001]",
      VStr "✅ TASK COMPLETE: Market Price Update finished successfully at 12:00:00 PM. Status: Checked 3 crops, 0 alerts [Farm: farm-001]").
Proof. vm_compute. reflexivity. Qed.



(** *** The theorems at sample jobs *)

Lemma draws_ok (l : list Q) (e : gmap string string) (now : Date) :
  Forall (fun u => (0 <= u)%Q /\ (u < 1)%Q /\ Num.double u) l ->
  random_ok (world e (draws l) now).
Proof.
  intros Hl i. cbn [random world]. unfold draws. revert i.
  induction Hl as [| u l Hu _ IH]; intros i.
  - destruct i; cbn [nth]; (split; [lra | split; [lra | rounds]]).
  - destruct i as [| i]; cbn [nth]; [exact Hu | apply IH].
Qed.

(** The draws of a sample world are doubles of [[0, 1)], by
    computation. *)
Ltac sample_draws :=
  apply draws_ok;
  repeat (apply List.Forall_cons;
          [split; [| split]; vm_compute; first [reflexivity | discriminate] |]);
  apply List.Forall_nil.

(** [formatMessage_deterministic] at an [irrigation_completed] event under
    two different clocks, and at a [task_completed] event under two worlds
    whose clocks show the same time. *)
Lemma formatMessage_deterministic_witness :
  let details : obj :=
    {[ "zone" := VStr "zone-b"; "beforeLevel" := VNum (Fin 30);
       "afterLevel" := VNum (Fin 65); "taskName" := VStr "Irrigation Assessment" ]} in
  snd (formatMessage node "irrigation_completed" details (world_at six_am noon))
  = snd (formatMessage node "irrigation_completed" details (world_at noon six_am)) /\
  snd (formatMessage node "task_completed" details (world ∅ (draws []) noon))
  = snd (formatMessage node "task_completed" details (world_at noon six_am)).
Proof.
  cbv zeta. split.
  - exact (formatMessage_deterministic node "irrigation_completed" _
             (world_at six_am noon) (world_at noon six_am) (or_introl eq_refl)).
  - exact (formatMessage_deterministic node "task_completed" _
             (world ∅ (draws []) noon) (world_at noon six_am) (or_intror eq_refl)).
Defined.






(** The same job run: the given 0 is replaced by the simulated
    0.25 * 40 + 20 = 30, and the level after is 30 + 0.5 * 30 + 20 = 65;
    a job carrying the reading 30 keeps it. *)
Example start_irrigation_zero_reading :
  let w := world ∅ (draws [1 # 4; 1 # 2]) six_am in
  events (queues (fst (start_irrigation node (irrigation_job 0) w))) =
    [ event "irrigation_completed"
        {[ "farmId" := VStr "farm-001"; "zone" := VStr "zone-b";
           "beforeLevel" := VNum (Fin 30); "afterLevel" := VNum (Fin 65);
           "duration" := VStr "30 minutes" ]} ] /\
  events (queues (fst (start_irrigation node (irrigation_job 30) w))) =
    [ event "irrigation_completed"
        {[ "farmId" := VStr "farm-001"; "zone" := VStr "zone-b";
           "beforeLevel" := VNum (Fin 30); "afterLevel" := VNum (Fin (115 # 2));
           "duration" := VStr "30 minutes" ]} ].
Proof. cbv zeta. split; vm_compute; reflexivity. Qed.


(** [process_failure_adds_no_job] at a [check-equipment-status] job whose
    second item is a number with health 10: [item.replace] throws, and
    nothing has been queued. *)
Lemma process_failure_adds_no_job_witness :
  let w := world ∅ (draws [1 # 2; dbl (1 # 10)]) six_am in
  snd (process node maintenanceQueue maintenance_job_with_number w)
  = Throw (TypeError "item.replace is not a function") /\
  queues (fst (process node maintenanceQueue maintenance_job_with_number w)) = queues w.
Proof.
  cbv zeta. split; [vm_compute; reflexivity |].
  apply (process_failure_adds_no_job node maintenanceQueue maintenance_job_with_number
           (world ∅ (draws [1 # 2; dbl (1 # 10)]) six_am)
           (TypeError "item.replace is not a function")).
  vm_compute. reflexivity.
Defined.

(** [fetch_market_prices_without_markets] at a job that lists the three
    crops and no markets, maize at 81.25 calling for an alert. *)
Lemma fetch_market_prices_without_markets_witness :
  let w := world ∅ (draws [7 # 8]) six_am in
  exists w' msg,
    fetch_market_prices node market_job_without_markets w = (w', Throw (TypeError msg)) /\
    queues w' = queues w.
Proof.
  cbv zeta. apply (fetch_market_prices_without_markets node market_job_without_markets).
  reflexivity.
Defined.

(** The same job at that draw: [markets[0]] throws at the first crop. *)
Example fetch_market_prices_without_markets_first_alert :
  let w := world ∅ (draws [7 # 8]) six_am in
  snd (fetch_market_prices node market_job_without_markets w)
  = Throw (TypeError "Cannot read properties of undefined (reading '0')") /\
  queues (fst (fetch_market_prices node market_job_without_markets w)) = no_jobs.
Proof. cbv zeta. split; vm_compute; reflexivity. Qed.

(** [follow_up_readings] at the soil-moisture job of the sensor webhook. *)
Lemma follow_up_readings_witness :
  let w := world ∅ (draws [dbl (1 # 10)]) six_am in
  exists js,
    irrigation (queues (fst (process node iotSensorQueue soil_moisture_job w)))
    = (irrigation (queues w) ++ js)%list /\
    Forall (fun j => Job.name j = "start-irrigation" /\
                     get (Job.data j) "farmId" = get (Job.data soil_moisture_job) "farmId" /\
                     exists x, get (Job.data j) "moistureLevel" = VNum (Fin x) /\
                               (0 <= x)%Q /\ (x < 100)%Q) js.
Proof.
  cbv zeta. apply (follow_up_readings node iotSensorQueue soil_moisture_job).
  sample_draws.
Defined.

(** [collect_weather_data_quiet] with both thresholds unset, at the
    draws [1 - 2^-53] (the largest there is: the temperature is 35, which
    does not exceed 35) and 0 (humidity 40). *)
Lemma collect_weather_data_quiet_witness :
  let w := world ∅ (draws [9007199254740991 # 9007199254740992; 0 # 1]) noon in
  queues (fst (collect_weather_data node weather_job w)) = queues w.
Proof.
  cbv zeta.
  apply (collect_weather_data_quiet node weather_job
           (world ∅ (draws [9007199254740991 # 9007199254740992; 0 # 1]) noon)
           (inject_Z 35) (inject_Z 40)).
  - sample_draws.
  - reflexivity.
  - unfold inject_Z. lra.
  - reflexivity.
  - unfold inject_Z. lra.
Defined.

(** The temperature of that run. *)
Example collect_weather_data_largest_draw :
  simulated (draws [9007199254740991 # 9007199254740992]) 0 15 20 = Fin 35.
Proof. vm_compute. reflexivity. Qed.

(** Readings that round to a threshold.  With
    [TEMPERATURE_HIGH_THRESHOLD] set to 27.5 and the draw [0.5 + 2^-53],
    the temperature [Math.random() * 15 + 20] is 27.5 and no warning is
    sent; at the draw [0x1.3333333333333p-1], the double just below
    [0.6], the leaf health is 60 and no warning is sent. *)
Example readings_at_a_threshold :
  let warm := (4503599627370497 # 9007199254740992)%Q in
  let below_0_6 := (5404319552844595 # 9007199254740992)%Q in
  let w := world {[ "TEMPERATURE_HIGH_THRESHOLD" := "27.5" ]} (draws [warm]) noon in
  simulated (random w) 0 15 20 = Fin (55 # 2) /\
  weather_threshold node (env w) "TEMPERATURE_HIGH_THRESHOLD" 35 = Fin (55 # 2) /\
  queues (fst (collect_weather_data node weather_job w)) = no_jobs /\
  reading (draws [below_0_6]) 0 = Fin 60 /\
  queues (fst (collect_crop_health node crop_health_job
                 (world ∅ (draws [below_0_6]) noon))) = no_jobs.
Proof. cbv zeta. repeat split; vm_compute; reflexivity. Qed.

(** [api_status_notifies] with [FARM_ID] set to [farm-007]: the answer
    shows [farm-007], the SMS says [farm-001]. *)
Lemma api_status_notifies_witness :
  let w := world {[ "FARM_ID" := "farm-007" ]} (draws []) noon in
  exists w' response,
    api_status node getJobCounts w = (w', Ok response) /\
    statusCode response = 200 /\
    get (body response) "environment" =
      VObj {[ "farmId" := VStr "farm-007"; "webhookBase" := VUndef;
              "redisHost" := VUndef ]} /\
    messages (queues w') =
      [VStr ("📊 SYSTEM UPDATE: System status check requested. "
             +:+ "All systems operating normally. [Farm: farm-001]")].
Proof.
  cbv zeta.
  destruct (api_status_notifies node getJobCounts
              (fun q => VObj {[ "waiting" := VNum (Num.of_nat (length (jobs q no_jobs))) ]})
              (world {[ "FARM_ID" := "farm-007" ]} (draws []) noon)
              (fun q => eq_refl))
    as (w' & response & Hrun & Hcode & _ & _ & Henv & _ & Hmessages & _).
  exists w', response. split; [exact Hrun |]. split; [exact Hcode |].
  split; [rewrite Henv | rewrite Hmessages]; vm_compute; reflexivity.
Defined.

(** [api_status_unavailable] when Redis is gone. *)
Lemma api_status_unavailable_witness :
  let w := world ∅ (draws []) noon in
  exists msg,
    api_status node getJobCounts_closed w =
      (w, Ok {| statusCode := 500; body := {[ "error" := VStr msg ]} |}).
Proof.
  cbv zeta.
  apply (api_status_unavailable node getJobCounts_closed (world ∅ (draws []) noon)
           iotSensorQueue (Error "Connection is closed.")).
  reflexivity.
Defined.

(** [setupScheduledTasks] when the scheduler refuses the market task: the
    two tasks before it are scheduled, the maintenance task is not. *)
Example setupScheduledTasks_market_task_refused :
  map (fun task => get task "name")
    (scheduled (setupScheduledTasks node ∅
                  (scheduler_refusing ["Market Price Updates"])))
  = [VStr "IoT Sensor Data Collection"; VStr "Irrigation Assessment"] /\
  map (fun task => prop (get task "webhook") "url")
    (scheduled (setupScheduledTasks node ∅ (scheduler_refusing [])))
  = [Ok (VStr "undefined/webhooks/collect-sensor-data");
     Ok (VStr "undefined/webhooks/irrigation-check");
     Ok (VStr "undefined/webhooks/market-prices");
     Ok (VStr "undefined/webhooks/maintenance-check")].
Proof. split; vm_compute; reflexivity. Qed.
